(** * Medicate-3d: hand-gesture interpreter and viewer control application

    A shallow embedding of
      - [src/components/3d/HandGestureController.tsx]
        ([detectGesture], [onResults] and the refs and hook state they use,
        and the effect that starts and stops the camera),
      - [src/components/3d/Viewer.tsx]
        ([animate], [onMouseDown], [onMouseMove], [onMouseUp] and the
        effects that mirror the gesture props into refs),
    followed by the properties of the specification that concern them.

    Numbers.  A JavaScript number is modelled as a real number: rounding of
    binary64 arithmetic is not modelled, [Math.hypot a b] is the exact
    [sqrt (a*a + b*b)].  The one place where the source can leave the finite
    numbers, the division [1 / (distance * 15)] at distance zero, is modelled
    with an explicit [Infinity].  Comparisons of reals are decided by
    [Rlt_dec], so the definitions are functions; on the concrete hands of
    [Hands] they are evaluated by the lemmas of section [EvaluatedHands]. *)

From Stdlib Require Import Reals Lra Lia List String Bool Arith.
Import ListNotations.
Local Open Scope string_scope.
Local Open Scope R_scope.

(** ** JavaScript primitives used by the two components *)

Module Js.

(** [a < b] and [a > b] on numbers. *)
Definition lt (a b : R) : bool := if Rlt_dec a b then true else false.
Definition gt (a b : R) : bool := lt b a.

(** [Math.hypot(a, b)]. *)
Definition hypot (a b : R) : R := sqrt (a * a + b * b).

(** [a / b] for a positive [a] and a [b] that is zero or more.  The only
    division of the source is [1 / (distance * 15)] with [distance] the
    result of [Math.sqrt]: at [distance = 0] the divisor is [+0] and the
    quotient is [+Infinity]. *)
Inductive number : Type :=
| Finite (r : R)
| Infinity.

Definition divide (a b : R) : number :=
  if Req_dec_T b 0 then Infinity else Finite (a / b).

(** [Math.min(a, q)] and [Math.max(a, b)] with a finite [a]. *)
Definition min (a : R) (q : number) : R :=
  match q with
  | Finite r => Rmin a r
  | Infinity => a
  end.

Definition max (a b : R) : R := Rmax a b.

(** [s.includes(sub)]. *)
Definition includes (s sub : string) : bool :=
  match String.index 0 sub s with
  | Some _ => true
  | None => false
  end.

(** Reading a property of [undefined] throws: code that can throw is
    written in the option monad, [None] being the thrown TypeError. *)
Definition bind {A B : Type} (m : option A) (k : A -> option B) : option B :=
  match m with
  | Some a => k a
  | None => None
  end.

End Js.

Notation "v <- m ;; k" := (Js.bind m (fun v => k))
  (at level 61, m at next level, right associativity).

(** ** Shared data *)

(** [mode: 'normal' | 'dissection' | 'pathology']. *)
Inductive Mode : Type := normal | dissection | pathology.

Definition Mode_eqb (a b : Mode) : bool :=
  match a, b with
  | normal, normal | dissection, dissection | pathology, pathology => true
  | _, _ => false
  end.

(** [interface GestureControls], declared in both components. *)
Record GestureControls : Type := {
  rotationX : R;
  rotationY : R;
  zoom : R;
  mode : Mode
}.

(** [{ x: number; y: number }]. *)
Module XY.
Record t : Type := mk { x : R; y : R }.
End XY.

(** One hand landmark, [{ x, y, z }] in normalized image coordinates. *)
Module Landmark.
Record t : Type := mk { x : R; y : R; z : R }.
End Landmark.

(** ** HandGestureController.tsx *)

Module HandGestureController.

(** The value returned by [detectGesture]. *)
Record Gesture : Type := {
  name : string;
  gmode : Mode
}.

Definition pinchName : string := "ü§è Pinch - Zoom Active".
Definition openHandName : string := "‚úã Open Hand - Dissection Mode".
Definition fistName : string := "‚úä Fist - Normal Mode".
Definition peaceName : string := "‚úåÔ∏è Peace Sign - Pathology Mode".
Definition openPalmName : string := "üñêÔ∏è Open Palm - Rotate Model".
Definition pointingName : string := "üëÜ Pointing - Rotate Model".
Definition unclearName : string := "Show a clear gesture".
Definition showHandName : string := "Show your hand".

(** [detectGesture(landmarks)], lines 232-295.  [gestureMode] is the
    variable of the enclosing component function that the body reads.
    [landmarks[i]] is [nth_error]; an index past the end yields
    [undefined], whose [.x] throws. *)
Definition detectGesture (gestureMode : Mode) (landmarks : list Landmark.t)
  : option Gesture :=
  thumbTip <- nth_error landmarks 4 ;;
  indexTip <- nth_error landmarks 8 ;;
  middleTip <- nth_error landmarks 12 ;;
  ringTip <- nth_error landmarks 16 ;;
  pinkyTip <- nth_error landmarks 20 ;;
  thumbKnuckle <- nth_error landmarks 2 ;;
  indexKnuckle <- nth_error landmarks 5 ;;
  middleKnuckle <- nth_error landmarks 9 ;;
  ringKnuckle <- nth_error landmarks 13 ;;
  pinkyKnuckle <- nth_error landmarks 17 ;;
  wrist <- nth_error landmarks 0 ;;
  let dx (p : Landmark.t) := Landmark.x p - Landmark.x wrist in
  let dy (p : Landmark.t) := Landmark.y p - Landmark.y wrist in
  let thumbExtended :=
    Js.gt (Js.hypot (dx thumbTip) (dy thumbTip))
          (Js.hypot (dx thumbKnuckle) (dy thumbKnuckle) + 0.05) in
  let indexExtended :=
    Js.gt (Js.hypot (dx indexTip) (dy indexTip))
          (Js.hypot (dx indexKnuckle) (dy indexKnuckle) + 0.05) in
  let middleExtended :=
    Js.gt (Js.hypot (dx middleTip) (dy middleTip))
          (Js.hypot (dx middleKnuckle) (dy middleKnuckle) + 0.05) in
  let ringExtended :=
    Js.gt (Js.hypot (dx ringTip) (dy ringTip))
          (Js.hypot (dx ringKnuckle) (dy ringKnuckle) + 0.05) in
  let pinkyExtended :=
    Js.gt (Js.hypot (dx pinkyTip) (dy pinkyTip))
          (Js.hypot (dx pinkyKnuckle) (dy pinkyKnuckle) + 0.05) in
  let extendedCount :=
    List.length
      (filter (fun b : bool => b)
              [indexExtended; middleExtended; ringExtended; pinkyExtended]) in
  let pinchDistance :=
    Js.hypot (Landmark.x thumbTip - Landmark.x indexTip)
             (Landmark.y thumbTip - Landmark.y indexTip) in
  if Js.lt pinchDistance 0.06 && negb middleExtended && negb ringExtended
     && negb pinkyExtended
  then Some {| name := pinchName; gmode := gestureMode |}
  else if (extendedCount =? 4)%nat && thumbExtended
  then Some {| name := openHandName; gmode := dissection |}
  else if (extendedCount =? 0)%nat && negb thumbExtended
  then Some {| name := fistName; gmode := normal |}
  else if indexExtended && middleExtended && negb ringExtended
          && negb pinkyExtended && negb thumbExtended
  then Some {| name := peaceName; gmode := pathology |}
  else if (3 <=? extendedCount)%nat
  then Some {| name := openPalmName; gmode := gestureMode |}
  else if indexExtended && negb middleExtended && negb ringExtended
          && negb pinkyExtended
  then Some {| name := pointingName; gmode := gestureMode |}
  else Some {| name := unclearName; gmode := gestureMode |}.

(** The refs and hook state of the component (lines 26-35) that
    [onResults] reads or writes.  [stateGestureMode] and
    [stateCurrentGesture] are the values held by the two [useState] hooks,
    as last set by [setGestureMode] and [setCurrentGesture]. *)
Record State : Type := {
  rotationRef : XY.t;
  zoomRef : R;
  lastHandPosRef : option XY.t;
  stateGestureMode : Mode;
  stateCurrentGesture : string
}.

(** Lines 27-34: the state of a freshly mounted component. *)
Definition initialState : State := {|
  rotationRef := XY.mk 0 0;
  zoomRef := 1;
  lastHandPosRef := None;
  stateGestureMode := normal;
  stateCurrentGesture := showHandName
|}.

(** What the registered callback sees besides the refs.  [onResults] is a
    function of the component body; the instance handed to
    [hands.onResults] (line 78) is the one of the render whose effect ran,
    and that effect depends on [enabled] alone (line 137).  Its free
    variables [enabled] and [gestureMode] therefore keep, for every frame of
    one enabling, the values of that render.  [canvasRef_current] and
    [canvasCtx] tell whether the canvas and its 2D context are there. *)
Record Closure : Type := {
  canvasRef_current : bool;
  canvasCtx : bool;
  enabled : bool;
  gestureMode : Mode
}.

(** [results.multiHandLandmarks], possibly undefined. *)
Record Results : Type := {
  multiHandLandmarks : option (list (list Landmark.t))
}.

Definition setCurrentGesture (n : string) (s : State) : State :=
  {| rotationRef := rotationRef s; zoomRef := zoomRef s;
     lastHandPosRef := lastHandPosRef s;
     stateGestureMode := stateGestureMode s;
     stateCurrentGesture := n |}.

Definition setGestureMode (m : Mode) (s : State) : State :=
  {| rotationRef := rotationRef s; zoomRef := zoomRef s;
     lastHandPosRef := lastHandPosRef s;
     stateGestureMode := m;
     stateCurrentGesture := stateCurrentGesture s |}.

Definition setRotation (r : XY.t) (s : State) : State :=
  {| rotationRef := r; zoomRef := zoomRef s;
     lastHandPosRef := lastHandPosRef s;
     stateGestureMode := stateGestureMode s;
     stateCurrentGesture := stateCurrentGesture s |}.

Definition setZoom (v : R) (s : State) : State :=
  {| rotationRef := rotationRef s; zoomRef := v;
     lastHandPosRef := lastHandPosRef s;
     stateGestureMode := stateGestureMode s;
     stateCurrentGesture := stateCurrentGesture s |}.

Definition setLastHandPos (p : option XY.t) (s : State) : State :=
  {| rotationRef := rotationRef s; zoomRef := zoomRef s;
     lastHandPosRef := p;
     stateGestureMode := stateGestureMode s;
     stateCurrentGesture := stateCurrentGesture s |}.

(** Line 208: [Math.max(0.3, Math.min(2.5, 1 / (distance * 15)))]. *)
Definition pinchZoom (distance : R) : R :=
  Js.max 0.3 (Js.min 2.5 (Js.divide 1 (distance * 15))).

(** Line 211: [zoomRef.current * 0.95 + 1.0 * 0.05]. *)
Definition decayZoom (z : R) : R := z * 0.95 + 1.0 * 0.05.

(** Lines 160-220: the branch of [onResults] taken when a hand is there.
    It yields the new state and the argument of [onGestureChange].  The
    only statement that can throw is the call of [detectGesture], which
    comes before any write (see [detectGesture_reads]). *)
Definition handDetected (env : Closure) (landmarks : list Landmark.t)
           (s : State) : option (State * GestureControls) :=
  gesture <- detectGesture (gestureMode env) landmarks ;;
  let s := setCurrentGesture (name gesture) s in
  let s :=
    if negb (Mode_eqb (gmode gesture) (gestureMode env))
    then setGestureMode (gmode gesture) s
    else s in
  palmCenter <- nth_error landmarks 9 ;;
  let s :=
    match lastHandPosRef s with
    | Some last =>
        let deltaX := Landmark.x palmCenter - XY.x last in
        let deltaY := Landmark.y palmCenter - XY.y last in
        if Js.includes (name gesture) "Rotate"
           || Js.includes (name gesture) "Pointing"
        then
          let r := rotationRef s in
          let r := XY.mk (XY.x r) (XY.y r + deltaX * 10) in
          let r := XY.mk (XY.x r - deltaY * 10) (XY.y r) in
          setRotation r s
        else s
    | None => s
    end in
  let s :=
    setLastHandPos
      (Some (XY.mk (Landmark.x palmCenter) (Landmark.y palmCenter))) s in
  s <- (if Js.includes (name gesture) "Pinch"
        then
          thumbTip <- nth_error landmarks 4 ;;
          indexTip <- nth_error landmarks 8 ;;
          let distance :=
            sqrt ((Landmark.x thumbTip - Landmark.x indexTip) ^ 2
                  + (Landmark.y thumbTip - Landmark.y indexTip) ^ 2) in
          Some (setZoom (pinchZoom distance) s)
        else Some (setZoom (decayZoom (zoomRef s)) s)) ;;
  Some (s, {| rotationX := XY.x (rotationRef s);
              rotationY := XY.y (rotationRef s);
              zoom := zoomRef s;
              mode := gmode gesture |}).

(** [onResults(results)], lines 139-230: the new state and what is passed
    to [onGestureChange] during the call, if it is called.  A throw inside
    the [try] block is caught (line 227) and only logged. *)
Definition onResults (env : Closure) (results : Results) (s : State)
  : State * option GestureControls :=
  if negb (canvasRef_current env) || negb (enabled env) then (s, None)
  else if negb (canvasCtx env) then (s, None)
  else
    match multiHandLandmarks results with
    | Some (landmarks :: _) =>
        match handDetected env landmarks s with
        | Some (s', controls) => (s', Some controls)
        | None => (s, None)
        end
    | _ =>
        (setLastHandPos None (setCurrentGesture showHandName s), None)
    end.

(** The callback registered when gestures are switched on with the
    component in state [s]: it reads the [gestureMode] of that render. *)
Definition register (s : State) : Closure := {|
  canvasRef_current := true;
  canvasCtx := true;
  enabled := true;
  gestureMode := stateGestureMode s
|}.

(** The frames of one enabling, delivered in order to the one callback:
    the final state and the emitted signals, oldest first. *)
Fixpoint run (env : Closure) (frames : list Results) (s : State)
  : State * list GestureControls :=
  match frames with
  | [] => (s, [])
  | r :: rest =>
      let '(s1, out) := onResults env r s in
      let '(s2, outs) := run env rest s1 in
      (s2, match out with Some c => c :: outs | None => outs end)
  end.

Definition handFrame (landmarks : list Landmark.t) : Results :=
  {| multiHandLandmarks := Some [landmarks] |}.

Definition noHandFrame : Results := {| multiHandLandmarks := Some [] |}.

End HandGestureController.

(** ** Viewer.tsx *)

Module Viewer.

Module Vec3.
Record t : Type := mk { x : R; y : R; z : R }.
End Vec3.

(** The part of the loaded model ([meshRef.current]) the component
    touches: its Euler rotation and its scale. *)
Record Mesh : Type := {
  rotation : Vec3.t;
  scale : Vec3.t
}.

Record MouseEvent : Type := {
  clientX : R;
  clientY : R
}.

(** The refs of the component and the locals of the effect (lines 125-126)
    shared by the mouse handlers and [animate]. *)
Record State : Type := {
  meshRef : option Mesh;
  isDragging : bool;
  previousMousePosition : XY.t;
  gestureEnabledRef : bool;
  gestureControlsRef : option GestureControls
}.

(** [selectedOrgan === 'brain'] for the optional prop [selectedOrgan]. *)
Definition isBrain (selectedOrgan : option string) : bool :=
  match selectedOrgan with
  | Some o => String.eqb o "brain"
  | None => false
  end.

(** Lines 99-105: the scale the model is loaded with. *)
Definition modelScale (selectedOrgan : option string) : Vec3.t :=
  if isBrain selectedOrgan then Vec3.mk 0.1 0.1 0.1
  else Vec3.mk 1000 1000 1000.

Definition setMesh (m : Mesh) (s : State) : State :=
  {| meshRef := Some m; isDragging := isDragging s;
     previousMousePosition := previousMousePosition s;
     gestureEnabledRef := gestureEnabledRef s;
     gestureControlsRef := gestureControlsRef s |}.

(** Lines 128-132. *)
Definition onMouseDown (e : MouseEvent) (s : State) : State :=
  if gestureEnabledRef s then s
  else
    {| meshRef := meshRef s; isDragging := true;
       previousMousePosition := XY.mk (clientX e) (clientY e);
       gestureEnabledRef := gestureEnabledRef s;
       gestureControlsRef := gestureControlsRef s |}.

(** Lines 134-141. *)
Definition onMouseMove (e : MouseEvent) (s : State) : State :=
  match meshRef s with
  | Some m =>
      if gestureEnabledRef s || negb (isDragging s) then s
      else
        let deltaX := clientX e - XY.x (previousMousePosition s) in
        let deltaY := clientY e - XY.y (previousMousePosition s) in
        let r := rotation m in
        let r := Vec3.mk (Vec3.x r) (Vec3.y r + deltaX * 0.01) (Vec3.z r) in
        let r := Vec3.mk (Vec3.x r + deltaY * 0.01) (Vec3.y r) (Vec3.z r) in
        {| meshRef := Some {| rotation := r; scale := scale m |};
           isDragging := isDragging s;
           previousMousePosition := XY.mk (clientX e) (clientY e);
           gestureEnabledRef := gestureEnabledRef s;
           gestureControlsRef := gestureControlsRef s |}
  | None => s
  end.

(** Lines 143-145. *)
Definition onMouseUp (s : State) : State :=
  {| meshRef := meshRef s; isDragging := false;
     previousMousePosition := previousMousePosition s;
     gestureEnabledRef := gestureEnabledRef s;
     gestureControlsRef := gestureControlsRef s |}.

(** Lines 152-175: one render tick ([requestAnimationFrame] and
    [renderer.render] left out). *)
Definition animate (selectedOrgan : option string) (s : State) : State :=
  let autoRotate := negb (gestureEnabledRef s) && negb (isDragging s) in
  match gestureEnabledRef s, gestureControlsRef s, meshRef s with
  | true, Some controls, Some m =>
      let r := rotation m in
      let r := Vec3.mk (rotationX controls) (Vec3.y r) (Vec3.z r) in
      let r := Vec3.mk (Vec3.x r) (rotationY controls) (Vec3.z r) in
      let scale := zoom controls in
      let sc :=
        if isBrain selectedOrgan
        then Vec3.mk (0.1 * scale) (0.1 * scale) (0.1 * scale)
        else Vec3.mk (1000 * scale) (1000 * scale) (1000 * scale) in
      setMesh {| rotation := r; scale := sc |} s
  | _, _, Some m =>
      if autoRotate
      then
        let r := rotation m in
        setMesh {| rotation := Vec3.mk (Vec3.x r) (Vec3.y r + 0.005) (Vec3.z r);
                   scale := scale m |} s
      else s
  | _, _, None => s
  end.

(** What happens to a mounted viewer between two changes of its props. *)
Inductive Event : Type :=
| Tick
| MouseDown (e : MouseEvent)
| MouseMove (e : MouseEvent)
| MouseUp.

Definition step (selectedOrgan : option string) (ev : Event) (s : State)
  : State :=
  match ev with
  | Tick => animate selectedOrgan s
  | MouseDown e => onMouseDown e s
  | MouseMove e => onMouseMove e s
  | MouseUp => onMouseUp s
  end.

Definition run (selectedOrgan : option string) (evs : list Event) (s : State)
  : State :=
  fold_left (fun s ev => step selectedOrgan ev s) evs s.

End Viewer.

(** ** The classifier in the words of the specification *)

Module Spec.

(** The closed set of classifications. *)
Inductive GestureClassification : Type :=
| Pinch
| OpenHandDissection
| FistNormal
| PeaceSignPathology
| OpenPalmRotate
| PointingRotate
| Unrecognized.

(** Euclidean distance of two landmarks in the image plane. *)
Definition distance (p q : Landmark.t) : R :=
  sqrt ((Landmark.x p - Landmark.x q) ^ 2 + (Landmark.y p - Landmark.y q) ^ 2).

(** A finger is extended iff its wrist-to-tip distance exceeds its
    wrist-to-knuckle distance by the margin 0.05. *)
Definition extended (wrist tip knuckle : Landmark.t) : bool :=
  if Rlt_dec (distance wrist knuckle + 0.05) (distance wrist tip)
  then true else false.

(** Landmark [i] of a hand (the origin where the hand has no such point). *)
Definition at_ (lm : list Landmark.t) (i : nat) : Landmark.t :=
  nth i lm (Landmark.mk 0 0 0).

Definition thumb (lm : list Landmark.t) : bool :=
  extended (at_ lm 0) (at_ lm 4) (at_ lm 2).
Definition index (lm : list Landmark.t) : bool :=
  extended (at_ lm 0) (at_ lm 8) (at_ lm 5).
Definition middle (lm : list Landmark.t) : bool :=
  extended (at_ lm 0) (at_ lm 12) (at_ lm 9).
Definition ring (lm : list Landmark.t) : bool :=
  extended (at_ lm 0) (at_ lm 16) (at_ lm 13).
Definition pinky (lm : list Landmark.t) : bool :=
  extended (at_ lm 0) (at_ lm 20) (at_ lm 17).

(** The number of extended non-thumb fingers. *)
Definition extendedCount (lm : list Landmark.t) : nat :=
  (Nat.b2n (index lm) + Nat.b2n (middle lm) + Nat.b2n (ring lm)
   + Nat.b2n (pinky lm))%nat.

(** Thumb tip to index tip. *)
Definition pinchDistance (lm : list Landmark.t) : R :=
  distance (at_ lm 4) (at_ lm 8).

Definition pinchClose (lm : list Landmark.t) : bool :=
  if Rlt_dec (pinchDistance lm) 0.06 then true else false.

(** The priority chain: guards in order, each with its classification. *)
Definition rules : list ((list Landmark.t -> bool) * GestureClassification) :=
  [ (fun lm => pinchClose lm && negb (middle lm) && negb (ring lm)
               && negb (pinky lm), Pinch);
    (fun lm => (extendedCount lm =? 4)%nat && thumb lm, OpenHandDissection);
    (fun lm => (extendedCount lm =? 0)%nat && negb (thumb lm), FistNormal);
    (fun lm => index lm && middle lm && negb (ring lm) && negb (pinky lm)
               && negb (thumb lm), PeaceSignPathology);
    (fun lm => (3 <=? extendedCount lm)%nat, OpenPalmRotate);
    (fun lm => index lm && negb (middle lm) && negb (ring lm)
               && negb (pinky lm), PointingRotate) ].

(** First match wins; no match is [Unrecognized]. *)
Definition classify (lm : list Landmark.t) : GestureClassification :=
  match find (fun rule => fst rule lm) rules with
  | Some rule => snd rule
  | None => Unrecognized
  end.

(** The mode a classification carries, or the sticky mode. *)
Definition modeOf (c : GestureClassification) (sticky : Mode) : Mode :=
  match c with
  | OpenHandDissection => dissection
  | FistNormal => normal
  | PeaceSignPathology => pathology
  | Pinch | OpenPalmRotate | PointingRotate | Unrecognized => sticky
  end.

(** The display name the controller gives a classification. *)
Definition nameOf (c : GestureClassification) : string :=
  match c with
  | Pinch => HandGestureController.pinchName
  | OpenHandDissection => HandGestureController.openHandName
  | FistNormal => HandGestureController.fistName
  | PeaceSignPathology => HandGestureController.peaceName
  | OpenPalmRotate => HandGestureController.openPalmName
  | PointingRotate => HandGestureController.pointingName
  | Unrecognized => HandGestureController.unclearName
  end.

Definition gestureOf (c : GestureClassification) (sticky : Mode)
  : HandGestureController.Gesture :=
  {| HandGestureController.name := nameOf c;
     HandGestureController.gmode := modeOf c sticky |}.

Definition rotateCapable (c : GestureClassification) : bool :=
  match c with
  | OpenPalmRotate | PointingRotate => true
  | _ => false
  end.

Definition isPinch (c : GestureClassification) : bool :=
  match c with
  | Pinch => true
  | _ => false
  end.

(** [clamp(v, lo, hi)]. *)
Definition clamp (v lo hi : R) : R := Rmax lo (Rmin hi v).

End Spec.

(** ** Concrete hands *)

Module Hands.

Definition pt (x y : R) : Landmark.t := Landmark.mk x y 0.

(** A hand given by its wrist and, per finger, the knuckle and the tip the
    classifier reads (indices 0; 2, 4; 5, 8; 9, 12; 13, 16; 17, 20); the
    joints in between repeat the knuckle. *)
Definition hand (wrist thumbK thumbT indexK indexT middleK middleT
                 ringK ringT pinkyK pinkyT : Landmark.t) : list Landmark.t :=
  [ wrist; wrist; thumbK; thumbK; thumbT;
    indexK; indexK; indexK; indexT;
    middleK; middleK; middleK; middleT;
    ringK; ringK; ringK; ringT;
    pinkyK; pinkyK; pinkyK; pinkyT ].

(** All five fingers stretched out. *)
Definition openHand : list Landmark.t :=
  hand (pt 0.5 0.9) (pt 0.4 0.9) (pt 0.2 0.9)
       (pt 0.5 0.6) (pt 0.5 0.3) (pt 0.5 0.6) (pt 0.5 0.3)
       (pt 0.5 0.6) (pt 0.5 0.3) (pt 0.5 0.6) (pt 0.5 0.3).

(** A closed fist, the thumb tip away from the index tip. *)
Definition fist : list Landmark.t :=
  hand (pt 0.5 0.9) (pt 0.4 0.9) (pt 0.38 0.9)
       (pt 0.5 0.6) (pt 0.5 0.65) (pt 0.5 0.6) (pt 0.5 0.65)
       (pt 0.5 0.6) (pt 0.5 0.65) (pt 0.5 0.6) (pt 0.5 0.65).

(** A closed fist whose thumb tip rests 0.03 from the index tip. *)
Definition pinchedFist : list Landmark.t :=
  hand (pt 0.5 0.9) (pt 0.5 0.8) (pt 0.5 0.78)
       (pt 0.5 0.6) (pt 0.5 0.75) (pt 0.5 0.6) (pt 0.5 0.65)
       (pt 0.5 0.6) (pt 0.5 0.65) (pt 0.5 0.6) (pt 0.5 0.65).

(** The scenario of the specification: thumb tip (0.50, 0.50), index tip
    (0.52, 0.50), middle, ring and pinky retracted. *)
Definition pinch : list Landmark.t :=
  hand (pt 0.5 0.9) (pt 0.5 0.7) (pt 0.50 0.50)
       (pt 0.5 0.6) (pt 0.52 0.50) (pt 0.5 0.6) (pt 0.5 0.65)
       (pt 0.5 0.6) (pt 0.5 0.65) (pt 0.5 0.6) (pt 0.5 0.65).

(** The same pinch with thumb and index tips on one point. *)
Definition pinchTouching : list Landmark.t :=
  hand (pt 0.5 0.9) (pt 0.5 0.7) (pt 0.5 0.5)
       (pt 0.5 0.6) (pt 0.5 0.5) (pt 0.5 0.6) (pt 0.5 0.65)
       (pt 0.5 0.6) (pt 0.5 0.65) (pt 0.5 0.6) (pt 0.5 0.65).

(** Index stretched out, the rest folded; the palm centre (landmark 9) at
    [(px, py)]. *)
Definition pointing (px py : R) : list Landmark.t :=
  hand (pt px (py + 0.3)) (pt (px - 0.1) (py + 0.3)) (pt (px - 0.12) (py + 0.3))
       (pt px py) (pt px (py - 0.3)) (pt px py) (pt px (py + 0.05))
       (pt px py) (pt px (py + 0.05)) (pt px py) (pt px (py + 0.05)).

End Hands.

(** ** Vocabulary of the statements *)

Module Frame.

(** The callback gets past its guards (lines 140 and 146): the canvas and
    its context exist and the closure was created with [enabled] true. *)
Definition ready (env : HandGestureController.Closure) : Prop :=
  HandGestureController.canvasRef_current env = true
  /\ HandGestureController.canvasCtx env = true
  /\ HandGestureController.enabled env = true.

(** A frame in which the detector found no hand. *)
Definition noHand (r : HandGestureController.Results) : Prop :=
  HandGestureController.multiHandLandmarks r = None
  \/ HandGestureController.multiHandLandmarks r = Some [].

(** The usable zoom range. *)
Definition zoomInRange (z : R) : Prop := 0.3 <= z <= 2.5.

(** The rotation a palm movement from [last] to [palm] adds. *)
Definition rotated (r : XY.t) (last : XY.t) (palm : Landmark.t) : XY.t :=
  XY.mk (XY.x r - (Landmark.y palm - XY.y last) * 10)
        (XY.y r + (Landmark.x palm - XY.x last) * 10).

(** [v] times the scalar [k], componentwise. *)
Definition scaled (v : Viewer.Vec3.t) (k : R) : Viewer.Vec3.t :=
  Viewer.Vec3.mk (Viewer.Vec3.x v * k) (Viewer.Vec3.y v * k)
                 (Viewer.Vec3.z v * k).

Import HandGestureController.

(** The state after a hand frame, by classification, and the signal read
    off a state. *)
Definition afterHand (env : Closure) (lm : list Landmark.t) (s : State) : State :=
  let c := Spec.classify lm in
  let palm := Spec.at_ lm 9 in
  {| rotationRef :=
       match lastHandPosRef s with
       | Some last =>
           if Spec.rotateCapable c then rotated (rotationRef s) last palm
           else rotationRef s
       | None => rotationRef s
       end;
     zoomRef :=
       if Spec.isPinch c then pinchZoom (Spec.pinchDistance lm)
       else decayZoom (zoomRef s);
     lastHandPosRef := Some (XY.mk (Landmark.x palm) (Landmark.y palm));
     stateGestureMode :=
       if Mode_eqb (Spec.modeOf c (gestureMode env)) (gestureMode env)
       then stateGestureMode s
       else Spec.modeOf c (gestureMode env);
     stateCurrentGesture := Spec.nameOf c |}.

Definition signalOf (s : State) (m : Mode) : GestureControls :=
  {| rotationX := XY.x (rotationRef s); rotationY := XY.y (rotationRef s);
     zoom := zoomRef s; mode := m |}.

(** A hand of 21 landmarks that is not classified Pinch. *)
Definition nonPinchHand (lm : list Landmark.t) : Prop :=
  List.length lm = 21%nat /\ Spec.classify lm <> Spec.Pinch.

End Frame.

(** ** Moving a hand in the image, and more hands *)

Module Geometry.

(** The landmark moved by [(dx, dy)] in the image plane. *)
Definition translate (dx dy : R) (p : Landmark.t) : Landmark.t :=
  Landmark.mk (Landmark.x p + dx) (Landmark.y p + dy) (Landmark.z p).

(** The landmark mirrored left to right in the unit image. *)
Definition mirror (p : Landmark.t) : Landmark.t :=
  Landmark.mk (1 - Landmark.x p) (Landmark.y p) (Landmark.z p).

(** The landmark with its depth replaced. *)
Definition withDepth (depth : Landmark.t -> R) (p : Landmark.t) : Landmark.t :=
  Landmark.mk (Landmark.x p) (Landmark.y p) (depth p).

(** The five finger tips. *)
Definition tips : list nat := [4; 8; 12; 16; 20]%nat.

End Geometry.

Module MoreHands.

(** A detector result cut short: three landmarks only. *)
Definition truncated : list Landmark.t :=
  [Hands.pt 0.5 0.9; Hands.pt 0.5 0.8; Hands.pt 0.5 0.7].

(** A hand so far from the camera that all its landmarks fall on one point. *)
Definition speck : list Landmark.t := repeat (Hands.pt 0.5 0.5) 21.

(** Index, middle, ring and pinky stretched out, the thumb folded, the
    thumb tip away from the index tip. *)
Definition openPalm : list Landmark.t :=
  Hands.hand (Hands.pt 0.5 0.9) (Hands.pt 0.4 0.9) (Hands.pt 0.38 0.9)
             (Hands.pt 0.5 0.6) (Hands.pt 0.5 0.3) (Hands.pt 0.5 0.6)
             (Hands.pt 0.5 0.3) (Hands.pt 0.5 0.6) (Hands.pt 0.5 0.3)
             (Hands.pt 0.5 0.6) (Hands.pt 0.5 0.3).

End MoreHands.

(** ** Vocabulary of the statements about runs *)

Module Runs.

(** A hand the classifier accepts and classifies as one of the two rotate
    gestures. *)
Definition rotateHand (lm : list Landmark.t) : Prop :=
  (21 <= List.length lm)%nat
  /\ Spec.rotateCapable (Spec.classify lm) = true.

(** The palm centre (landmark 9) of the last hand of a run, or [p] for the
    empty run. *)
Definition lastPalm (p : XY.t) (lms : list (list Landmark.t)) : XY.t :=
  match rev lms with
  | lm :: _ => XY.mk (Landmark.x (Spec.at_ lm 9)) (Landmark.y (Spec.at_ lm 9))
  | [] => p
  end.

(** The zoom never leaves the side of 1.0 on which a pinch can put it. *)
Definition zoomedIn (z : R) : Prop := 1 <= z <= 2.5.

End Runs.

(** ** Viewer.tsx: the props mirrored into refs *)

Module ViewerProps.

(** Lines 31-33: the effect that copies the prop [gestureControls] into
    [gestureControlsRef]. *)
Definition setGestureControls (c : option GestureControls) (s : Viewer.State)
  : Viewer.State :=
  {| Viewer.meshRef := Viewer.meshRef s;
     Viewer.isDragging := Viewer.isDragging s;
     Viewer.previousMousePosition := Viewer.previousMousePosition s;
     Viewer.gestureEnabledRef := Viewer.gestureEnabledRef s;
     Viewer.gestureControlsRef := c |}.

(** Lines 35-37: the effect that copies the prop [gestureEnabled] into
    [gestureEnabledRef]. *)
Definition setGestureEnabled (b : bool) (s : Viewer.State) : Viewer.State :=
  {| Viewer.meshRef := Viewer.meshRef s;
     Viewer.isDragging := Viewer.isDragging s;
     Viewer.previousMousePosition := Viewer.previousMousePosition s;
     Viewer.gestureEnabledRef := b;
     Viewer.gestureControlsRef := Viewer.gestureControlsRef s |}.


End ViewerProps.

(** ** HandGestureController.tsx: the effect that starts and stops the camera *)

Module Lifecycle.

Import HandGestureController.

(** The component between two events.  [interp] holds the refs and hook
    state the frame callback works on; the other refs and hooks are those of
    lines 23-35.  A [Hands] or [Camera] object is known by the number of the
    effect run that constructed it.  Outside the component, [started] lists
    the cameras on which [start()] was called and [stop()] not since,
    [opened] the [Hands] objects constructed and not closed; [mounted] lists
    the effect runs whose local variable [mounted] is still true, [pending]
    the runs whose [camera.start()] promise is not settled, and [fresh] is
    the number of the next run. *)
Record Component : Type := {
  interp : State;
  cameraRef : option nat;
  handsRef : option nat;
  initializingRef : bool;
  isInitialized : bool;
  error : option string;
  started : list nat;
  opened : list nat;
  mounted : list nat;
  pending : list nat;
  fresh : nat
}.

(** Lines 21-35: a freshly mounted component. *)
Definition initial : Component := {|
  interp := initialState;
  cameraRef := None;
  handsRef := None;
  initializingRef := false;
  isInitialized := false;
  error := None;
  started := [];
  opened := [];
  mounted := [];
  pending := [];
  fresh := 0
|}.

Definition cameraError : string := "Camera access denied or not available".

Definition without (k : nat) (l : list nat) : list nat :=
  filter (fun j => negb (j =? k)%nat) l.

Definition has (k : nat) (l : list nat) : bool := existsb (Nat.eqb k) l.

(** [if (cameraRef.current) { cameraRef.current.stop(); cameraRef.current = null; }]
    (lines 40-43 and 116-123, where a throwing [stop()] is caught). *)
Definition stopCamera (c : Component) : Component :=
  match cameraRef c with
  | Some k =>
      {| interp := interp c; cameraRef := None; handsRef := handsRef c;
         initializingRef := initializingRef c; isInitialized := isInitialized c;
         error := error c; started := without k (started c);
         opened := opened c; mounted := mounted c; pending := pending c;
         fresh := fresh c |}
  | None => c
  end.

(** [if (handsRef.current) { handsRef.current.close(); handsRef.current = null; }]
    (lines 44-47 and 126-133). *)
Definition closeHands (c : Component) : Component :=
  match handsRef c with
  | Some k =>
      {| interp := interp c; cameraRef := cameraRef c; handsRef := None;
         initializingRef := initializingRef c; isInitialized := isInitialized c;
         error := error c; started := started c;
         opened := without k (opened c); mounted := mounted c;
         pending := pending c; fresh := fresh c |}
  | None => c
  end.

(** Lines 38-54: the effect body when [enabled] is false. *)
Definition disabledBranch (c : Component) : Component :=
  let c := closeHands (stopCamera c) in
  {| interp := setLastHandPos None (setCurrentGesture showHandName (interp c));
     cameraRef := cameraRef c; handsRef := handsRef c;
     initializingRef := false; isInitialized := false; error := None;
     started := started c; opened := opened c; mounted := mounted c;
     pending := pending c; fresh := fresh c |}.

(** Lines 37-137: one run of the effect, with the value of [enabled] of
    the render and whether [videoRef.current] is set.  It yields the new
    component and, when the run returns a cleanup function, the number of
    the run (the cleanup closes over the run's [mounted]). *)
Definition effect (enabled videoRef_current : bool) (c : Component)
  : Component * option nat :=
  if negb enabled then (disabledBranch c, None)
  else if initializingRef c
          || match handsRef c with Some _ => true | None => false end
  then (c, None)
  else
    let k := fresh c in
    let camera := videoRef_current in
    ({| interp := interp c;
        cameraRef := if camera then Some k else cameraRef c;
        handsRef := Some k;
        initializingRef := true;
        isInitialized := isInitialized c;
        error := error c;
        started := if camera then k :: started c else started c;
        opened := k :: opened c;
        mounted := k :: mounted c;
        pending := if camera then k :: pending c else pending c;
        fresh := S k |},
     Some k).

(** Lines 111-136: the cleanup function returned by run [k]. *)
Definition cleanup (k : nat) (c : Component) : Component :=
  let c := {| interp := interp c; cameraRef := cameraRef c;
              handsRef := handsRef c; initializingRef := false;
              isInitialized := isInitialized c; error := error c;
              started := started c; opened := opened c;
              mounted := without k (mounted c); pending := pending c;
              fresh := fresh c |} in
  let c := closeHands (stopCamera c) in
  {| interp := interp c; cameraRef := cameraRef c; handsRef := handsRef c;
     initializingRef := initializingRef c; isInitialized := false;
     error := error c; started := started c; opened := opened c;
     mounted := mounted c; pending := pending c; fresh := fresh c |}.

(** Lines 93-98 and 99-106: the [then] and [catch] callbacks of the
    [camera.start()] of run [k]; [ok] tells which of the two is called. *)
Definition settled (k : nat) (ok : bool) (c : Component) : Component :=
  if has k (mounted c)
  then
    {| interp := interp c; cameraRef := cameraRef c; handsRef := handsRef c;
       initializingRef := false; isInitialized := ok;
       error := if ok then None else Some cameraError;
       started := started c; opened := opened c; mounted := mounted c;
       pending := pending c; fresh := fresh c |}
  else c.

(** The mounted component as React sees it: the [enabled] prop of the last
    render and the cleanup function the last effect run returned. *)
Record Mounted : Type := {
  comp : Component;
  enabledProp : bool;
  cleanupOf : option nat
}.

(** What happens to a mounted component: a render with a value of the prop
    [enabled] (and [videoRef.current] set or not by then), or the promise of
    a [camera.start()] settling. *)
Inductive Event : Type :=
| Render (enabled videoRef_current : bool)
| CameraStarted (k : nat)
| CameraFailed (k : nat).

(** The first render. *)
Definition mount (enabled videoRef_current : bool) : Mounted :=
  let '(c, cl) := effect enabled videoRef_current initial in
  {| comp := c; enabledProp := enabled; cleanupOf := cl |}.

Definition settle (k : nat) (ok : bool) (m : Mounted) : Mounted :=
  if has k (pending (comp m))
  then
    let c := comp m in
    let c := {| interp := interp c; cameraRef := cameraRef c;
                handsRef := handsRef c; initializingRef := initializingRef c;
                isInitialized := isInitialized c; error := error c;
                started := started c; opened := opened c;
                mounted := mounted c; pending := without k (pending c);
                fresh := fresh c |} in
    {| comp := settled k ok c; enabledProp := enabledProp m;
       cleanupOf := cleanupOf m |}
  else m.

(** The effect has the dependency list [[enabled]] (line 137): a render
    with the same [enabled] runs nothing; a render with another one runs the
    cleanup of the previous run, if it returned one, and then the effect. *)
Definition step (ev : Event) (m : Mounted) : Mounted :=
  match ev with
  | Render b v =>
      if Bool.eqb b (enabledProp m) then m
      else
        let c := match cleanupOf m with
                 | Some k => cleanup k (comp m)
                 | None => comp m
                 end in
        let '(c', cl) := effect b v c in
        {| comp := c'; enabledProp := b; cleanupOf := cl |}
  | CameraStarted k => settle k true m
  | CameraFailed k => settle k false m
  end.

Definition run (evs : list Event) (m : Mounted) : Mounted :=
  fold_left (fun m ev => step ev m) evs m.

(** An event that is no render. *)
Definition isSettle (ev : Event) : bool :=
  match ev with
  | Render _ _ => false
  | CameraStarted _ | CameraFailed _ => true
  end.

(** What holds of a mounted component after every event.  Cameras and
    [Hands] objects in use are the ones the refs hold, one at most; the run
    whose [mounted] is true is the one whose cleanup React holds; while
    [enabled] is true that run's [Hands] is held, and while it is false
    everything is released and reset. *)
Definition Inv (m : Mounted) : Prop :=
  let c := comp m in
  (forall j, In j (started c) -> cameraRef c = Some j)
  /\ (forall j, In j (opened c) -> handsRef c = Some j)
  /\ (forall j, In j (mounted c) -> cleanupOf m = Some j)
  /\ (List.length (started c) <= 1)%nat
  /\ (List.length (opened c) <= 1)%nat
  /\ (forall j, cameraRef c = Some j -> handsRef c = Some j)
  /\ (forall k, cleanupOf m = Some k ->
                enabledProp m = true /\ handsRef c = Some k /\ opened c = [k])
  /\ (enabledProp m = true -> cleanupOf m <> None)
  /\ (enabledProp m = false ->
      cameraRef c = None /\ handsRef c = None /\ initializingRef c = false
      /\ isInitialized c = false /\ error c = None
      /\ lastHandPosRef (interp c) = None).

End Lifecycle.

(** * Properties *)

(** ** Numbers *)

Section Numbers.

(** [Math.hypot] of the coordinate differences and [Math.sqrt] of the sum
    of [Math.pow(_, 2)] are both the Euclidean distance. *)
Lemma hypot_distance (p q : Landmark.t) :
  Js.hypot (Landmark.x p - Landmark.x q) (Landmark.y p - Landmark.y q)
  = Spec.distance q p.
Proof.
  unfold Js.hypot, Spec.distance. f_equal. ring.
Qed.

Lemma distance_sym (p q : Landmark.t) : Spec.distance p q = Spec.distance q p.
Proof. unfold Spec.distance. f_equal. ring. Qed.

Lemma distance_nonneg (p q : Landmark.t) : 0 <= Spec.distance p q.
Proof. apply sqrt_pos. Qed.

Lemma gt_extended (wrist tip knuckle : Landmark.t) :
  Js.gt (Js.hypot (Landmark.x tip - Landmark.x wrist)
                  (Landmark.y tip - Landmark.y wrist))
        (Js.hypot (Landmark.x knuckle - Landmark.x wrist)
                  (Landmark.y knuckle - Landmark.y wrist) + 0.05)
  = Spec.extended wrist tip knuckle.
Proof.
  rewrite !hypot_distance. reflexivity.
Qed.

Lemma lt_pinchClose (thumbTip indexTip : Landmark.t) :
  Js.lt (Js.hypot (Landmark.x thumbTip - Landmark.x indexTip)
                  (Landmark.y thumbTip - Landmark.y indexTip)) 0.06
  = (if Rlt_dec (Spec.distance thumbTip indexTip) 0.06 then true else false).
Proof.
  rewrite hypot_distance, distance_sym. reflexivity.
Qed.

End Numbers.

(** ** The classifier *)

Section Classifier.

Import HandGestureController.

(** A list of 21 landmarks, spelled out. *)
Lemma length_21 (lm : list Landmark.t) :
  List.length lm = 21%nat ->
  exists p0 p1 p2 p3 p4 p5 p6 p7 p8 p9 p10 p11 p12 p13 p14 p15 p16 p17 p18
         p19 p20,
    lm = [p0; p1; p2; p3; p4; p5; p6; p7; p8; p9; p10; p11; p12; p13; p14;
          p15; p16; p17; p18; p19; p20].
Proof.
  intros H.
  do 21 (destruct lm as [|? lm]; [discriminate H|]).
  destruct lm; [|discriminate H].
  repeat eexists.
Qed.

(** [detectGesture] computes the classification of the priority chain,
    with the name and the mode that go with it. *)
Lemma detectGesture_classify (gm : Mode) (lm : list Landmark.t) :
  List.length lm = 21%nat ->
  detectGesture gm lm = Some (Spec.gestureOf (Spec.classify lm) gm).
Proof.
  intros H. destruct (length_21 lm H) as
    (p0 & p1 & p2 & p3 & p4 & p5 & p6 & p7 & p8 & p9 & p10 & p11 & p12 & p13
     & p14 & p15 & p16 & p17 & p18 & p19 & p20 & ->).
  unfold detectGesture. cbn [nth_error Js.bind].
  rewrite !gt_extended, lt_pinchClose.
  unfold Spec.classify, Spec.rules. cbn [find fst snd].
  unfold Spec.extendedCount, Spec.pinchClose, Spec.pinchDistance,
    Spec.thumb, Spec.index, Spec.middle, Spec.ring, Spec.pinky, Spec.at_.
  cbn [nth].
  destruct (Rlt_dec (Spec.distance p4 p8) 0.06);
    destruct (Spec.extended p0 p4 p2), (Spec.extended p0 p8 p5),
      (Spec.extended p0 p12 p9), (Spec.extended p0 p16 p13),
      (Spec.extended p0 p20 p17); reflexivity.
Qed.

End Classifier.

(** ** Evaluating the classifier on the concrete hands *)

Section Evaluation.

Lemma distance_le (p q : Landmark.t) (c : R) :
  0 <= c ->
  (Landmark.x p - Landmark.x q) ^ 2 + (Landmark.y p - Landmark.y q) ^ 2 <= c * c ->
  Spec.distance p q <= c.
Proof.
  intros Hc H. unfold Spec.distance.
  rewrite <- (sqrt_square c Hc). now apply sqrt_le_1_alt.
Qed.

Lemma distance_ge (p q : Landmark.t) (c : R) :
  0 <= c ->
  c * c <= (Landmark.x p - Landmark.x q) ^ 2 + (Landmark.y p - Landmark.y q) ^ 2 ->
  c <= Spec.distance p q.
Proof.
  intros Hc H. unfold Spec.distance.
  rewrite <- (sqrt_square c Hc). now apply sqrt_le_1_alt.
Qed.

Lemma distance_eq (p q : Landmark.t) (c : R) :
  0 <= c ->
  (Landmark.x p - Landmark.x q) ^ 2 + (Landmark.y p - Landmark.y q) ^ 2 = c * c ->
  Spec.distance p q = c.
Proof.
  intros Hc H. unfold Spec.distance. rewrite H. now apply sqrt_square.
Qed.

Lemma extended_true (w t k : Landmark.t) (a b : R) :
  Spec.distance w k <= a -> b <= Spec.distance w t -> a + 0.05 < b ->
  Spec.extended w t k = true.
Proof.
  intros Hk Ht Hab. unfold Spec.extended.
  destruct (Rlt_dec _ _); [reflexivity | lra].
Qed.

Lemma extended_false (w t k : Landmark.t) (a b : R) :
  a <= Spec.distance w k -> Spec.distance w t <= b -> b <= a + 0.05 ->
  Spec.extended w t k = false.
Proof.
  intros Hk Ht Hab. unfold Spec.extended.
  destruct (Rlt_dec _ _); [lra | reflexivity].
Qed.

Lemma pinchClose_true (lm : list Landmark.t) (c : R) :
  Spec.pinchDistance lm <= c -> c < 0.06 -> Spec.pinchClose lm = true.
Proof.
  intros H Hc. unfold Spec.pinchClose.
  destruct (Rlt_dec _ _); [reflexivity | lra].
Qed.

Lemma pinchClose_false (lm : list Landmark.t) (c : R) :
  c <= Spec.pinchDistance lm -> 0.06 <= c -> Spec.pinchClose lm = false.
Proof.
  intros H Hc. unfold Spec.pinchClose.
  destruct (Rlt_dec _ _); [lra | reflexivity].
Qed.

End Evaluation.

(** [dist_le] and [dist_ge] bound a distance of concrete landmarks by a
    rational; [is_extended a b] and [not_extended a b] settle a finger from a
    bound [a] on the wrist-knuckle and [b] on the wrist-tip distance. *)
Ltac dist_le := apply distance_le; cbn; [lra | nra].
Ltac dist_ge := apply distance_ge; cbn; [lra | nra].
Ltac is_extended a b :=
  apply (extended_true _ _ _ a b); [dist_le | dist_ge | lra].
Ltac not_extended a b :=
  apply (extended_false _ _ _ a b); [dist_ge | dist_le | lra].
Ltac unfold_finger :=
  unfold Spec.thumb, Spec.index, Spec.middle, Spec.ring, Spec.pinky,
    Spec.pinchDistance, Spec.at_; cbn [nth].
Ltac classify_with Hp Ht Hi Hm Hr Hk :=
  unfold Spec.classify, Spec.rules, Spec.extendedCount; cbn [find fst snd];
  rewrite ?Hp, ?Ht, ?Hi, ?Hm, ?Hr, ?Hk; reflexivity.

Section EvaluatedHands.

Lemma openHand_fingers :
  Spec.thumb Hands.openHand = true /\ Spec.index Hands.openHand = true
  /\ Spec.middle Hands.openHand = true /\ Spec.ring Hands.openHand = true
  /\ Spec.pinky Hands.openHand = true.
Proof.
  unfold Hands.openHand, Hands.hand. unfold_finger.
  repeat split; [is_extended 0.1 0.3 | is_extended 0.3 0.6 ..].
Qed.

Lemma openHand_pinchClose : Spec.pinchClose Hands.openHand = false.
Proof.
  apply (pinchClose_false _ 0.3); [|lra].
  unfold Hands.openHand, Hands.hand. unfold_finger. dist_ge.
Qed.

Lemma classify_openHand : Spec.classify Hands.openHand = Spec.OpenHandDissection.
Proof.
  destruct openHand_fingers as (Ht & Hi & Hm & Hr & Hk).
  classify_with openHand_pinchClose Ht Hi Hm Hr Hk.
Qed.

Lemma fist_fingers :
  Spec.thumb Hands.fist = false /\ Spec.index Hands.fist = false
  /\ Spec.middle Hands.fist = false /\ Spec.ring Hands.fist = false
  /\ Spec.pinky Hands.fist = false.
Proof.
  unfold Hands.fist, Hands.hand. unfold_finger.
  repeat split; [not_extended 0.1 0.12 | not_extended 0.3 0.25 ..].
Qed.

Lemma fist_pinchClose : Spec.pinchClose Hands.fist = false.
Proof.
  apply (pinchClose_false _ 0.12); [|lra].
  unfold Hands.fist, Hands.hand. unfold_finger. dist_ge.
Qed.

Lemma classify_fist : Spec.classify Hands.fist = Spec.FistNormal.
Proof.
  destruct fist_fingers as (Ht & Hi & Hm & Hr & Hk).
  classify_with fist_pinchClose Ht Hi Hm Hr Hk.
Qed.

Lemma pinchedFist_fingers :
  Spec.thumb Hands.pinchedFist = false /\ Spec.index Hands.pinchedFist = false
  /\ Spec.middle Hands.pinchedFist = false /\ Spec.ring Hands.pinchedFist = false
  /\ Spec.pinky Hands.pinchedFist = false.
Proof.
  unfold Hands.pinchedFist, Hands.hand. unfold_finger.
  repeat split;
    [not_extended 0.1 0.12 | not_extended 0.3 0.15 | not_extended 0.3 0.25 ..].
Qed.

Lemma pinchedFist_pinchClose : Spec.pinchClose Hands.pinchedFist = true.
Proof.
  apply (pinchClose_true _ 0.03); [|lra].
  unfold Hands.pinchedFist, Hands.hand. unfold_finger. dist_le.
Qed.

Lemma classify_pinchedFist : Spec.classify Hands.pinchedFist = Spec.Pinch.
Proof.
  destruct pinchedFist_fingers as (Ht & Hi & Hm & Hr & Hk).
  classify_with pinchedFist_pinchClose Ht Hi Hm Hr Hk.
Qed.

Lemma pinch_fingers :
  Spec.middle Hands.pinch = false /\ Spec.ring Hands.pinch = false
  /\ Spec.pinky Hands.pinch = false.
Proof.
  unfold Hands.pinch, Hands.hand. unfold_finger.
  repeat split; not_extended 0.3 0.25.
Qed.

Lemma pinch_pinchDistance : Spec.pinchDistance Hands.pinch = 0.02.
Proof.
  unfold Hands.pinch, Hands.hand. unfold_finger.
  apply distance_eq; cbn; lra.
Qed.

Lemma classify_pinch : Spec.classify Hands.pinch = Spec.Pinch.
Proof.
  destruct pinch_fingers as (Hm & Hr & Hk).
  assert (Hp : Spec.pinchClose Hands.pinch = true).
  { apply (pinchClose_true _ 0.02); [rewrite pinch_pinchDistance|]; lra. }
  classify_with Hp Hm Hm Hm Hr Hk.
Qed.

Lemma pinchTouching_pinchDistance : Spec.pinchDistance Hands.pinchTouching = 0.
Proof.
  unfold Hands.pinchTouching, Hands.hand. unfold_finger.
  apply distance_eq; cbn; lra.
Qed.

Lemma classify_pinchTouching : Spec.classify Hands.pinchTouching = Spec.Pinch.
Proof.
  assert (Hf : Spec.middle Hands.pinchTouching = false
               /\ Spec.ring Hands.pinchTouching = false
               /\ Spec.pinky Hands.pinchTouching = false).
  { unfold Hands.pinchTouching, Hands.hand. unfold_finger.
    repeat split; not_extended 0.3 0.25. }
  destruct Hf as (Hm & Hr & Hk).
  assert (Hp : Spec.pinchClose Hands.pinchTouching = true).
  { apply (pinchClose_true _ 0); [rewrite pinchTouching_pinchDistance|]; lra. }
  classify_with Hp Hm Hm Hm Hr Hk.
Qed.

Lemma pointing_fingers (px py : R) :
  Spec.thumb (Hands.pointing px py) = false
  /\ Spec.index (Hands.pointing px py) = true
  /\ Spec.middle (Hands.pointing px py) = false
  /\ Spec.ring (Hands.pointing px py) = false
  /\ Spec.pinky (Hands.pointing px py) = false.
Proof.
  unfold Hands.pointing, Hands.hand. unfold_finger.
  repeat split;
    [not_extended 0.1 0.12 | is_extended 0.3 0.6 | not_extended 0.3 0.25 ..].
Qed.

Lemma pointing_pinchClose (px py : R) :
  Spec.pinchClose (Hands.pointing px py) = false.
Proof.
  apply (pinchClose_false _ 0.12); [|lra].
  unfold Hands.pointing, Hands.hand. unfold_finger. dist_ge.
Qed.

Lemma classify_pointing (px py : R) :
  Spec.classify (Hands.pointing px py) = Spec.PointingRotate.
Proof.
  destruct (pointing_fingers px py) as (Ht & Hi & Hm & Hr & Hk).
  classify_with (pointing_pinchClose px py) Ht Hi Hm Hr Hk.
Qed.

End EvaluatedHands.

(** ** One frame of the interpreter *)

Section OneFrame.

Import HandGestureController.

Lemma includes_rotate (c : Spec.GestureClassification) :
  Js.includes (Spec.nameOf c) "Rotate" || Js.includes (Spec.nameOf c) "Pointing"
  = Spec.rotateCapable c.
Proof. destruct c; vm_compute; reflexivity. Qed.

Lemma includes_pinch (c : Spec.GestureClassification) :
  Js.includes (Spec.nameOf c) "Pinch" = Spec.isPinch c.
Proof. destruct c; vm_compute; reflexivity. Qed.

(** Once [detectGesture] has returned, the later reads of [landmarks[9]],
    [landmarks[4]] and [landmarks[8]] in [onResults] cannot throw. *)
Lemma detectGesture_reads (gm : Mode) (lm : list Landmark.t) (g : Gesture) :
  detectGesture gm lm = Some g ->
  nth_error lm 9 <> None /\ nth_error lm 4 <> None /\ nth_error lm 8 <> None.
Proof.
  unfold detectGesture. intros H.
  destruct (nth_error lm 4); [|discriminate H].
  destruct (nth_error lm 8); [|discriminate H].
  cbn [Js.bind] in H.
  destruct (nth_error lm 12); [|discriminate H].
  destruct (nth_error lm 16); [|discriminate H].
  destruct (nth_error lm 20); [|discriminate H].
  destruct (nth_error lm 2); [|discriminate H].
  destruct (nth_error lm 5); [|discriminate H].
  cbn [Js.bind] in H.
  destruct (nth_error lm 9); [|discriminate H].
  repeat split; discriminate.
Qed.

Lemma onResults_hand (env : Closure) (lm : list Landmark.t) (s : State) :
  Frame.ready env -> List.length lm = 21%nat ->
  onResults env (handFrame lm) s
  = (Frame.afterHand env lm s,
     Some (Frame.signalOf (Frame.afterHand env lm s)
                    (Spec.modeOf (Spec.classify lm) (gestureMode env)))).
Proof.
  intros (Hc & Hx & He) Hlen.
  unfold onResults. rewrite Hc, Hx, He. cbn [negb orb handFrame multiHandLandmarks].
  unfold handDetected. rewrite (detectGesture_classify _ _ Hlen).
  cbn [Js.bind Spec.gestureOf name gmode].
  rewrite includes_rotate, includes_pinch.
  unfold Frame.afterHand, Frame.signalOf, Spec.pinchDistance, Spec.at_.
  destruct (length_21 lm Hlen) as
    (p0 & p1 & p2 & p3 & p4 & p5 & p6 & p7 & p8 & p9 & p10 & p11 & p12 & p13
     & p14 & p15 & p16 & p17 & p18 & p19 & p20 & Hlm).
  set (c := Spec.classify lm). clearbody c. subst lm.
  cbn [nth_error nth Js.bind].
  destruct (Mode_eqb (Spec.modeOf c (gestureMode env)) (gestureMode env));
    cbn [negb];
    destruct (lastHandPosRef s) as [last|] eqn:Hlast;
    cbn [setCurrentGesture setGestureMode setRotation setZoom setLastHandPos
         lastHandPosRef rotationRef zoomRef stateGestureMode
         stateCurrentGesture];
    rewrite ?Hlast;
    destruct (Spec.rotateCapable c); destruct (Spec.isPinch c);
    cbn [Js.bind setCurrentGesture setGestureMode setRotation setZoom
         setLastHandPos lastHandPosRef rotationRef zoomRef stateGestureMode
         stateCurrentGesture XY.x XY.y];
    unfold Frame.rotated; reflexivity.
Qed.

Lemma onResults_noHand (env : Closure) (r : Results) (s : State) :
  Frame.ready env -> Frame.noHand r ->
  onResults env r s
  = (setLastHandPos None (setCurrentGesture showHandName s), None).
Proof.
  intros (Hc & Hx & He) Hr.
  unfold onResults. rewrite Hc, Hx, He. cbn [negb orb].
  destruct Hr as [-> | ->]; reflexivity.
Qed.

End OneFrame.

(** ** The priority chain (claims C1 and C2) *)

Section PriorityChain.

Import HandGestureController.

(** C1.  For every hand of 21 landmarks and every sticky mode [gm] read by
    the classifier, [detectGesture] returns the gesture of the first rule of
    the priority chain [Spec.rules] whose guard holds (Pinch, Dissection,
    Normal, Pathology, Rotate-palm, Rotate-point, in this order) and
    Unrecognized when none does, with the mode the classification carries or
    else the sticky mode; fingers are extended by the 0.05 margin on
    Euclidean distances and the count is over the four non-thumb fingers. *)
Theorem detectGesture_first_match (gm : Mode) (lm : list Landmark.t) :
  List.length lm = 21%nat ->
  detectGesture gm lm = Some (Spec.gestureOf (Spec.classify lm) gm).
Proof.
  intros Hlen. now apply detectGesture_classify.
Qed.

Lemma detectGesture_first_match_witness :
  List.length Hands.openHand = 21%nat
  /\ detectGesture normal Hands.openHand
     = Some (Spec.gestureOf (Spec.classify Hands.openHand) normal).
Proof.
  split; [reflexivity | apply (detectGesture_first_match normal Hands.openHand)].
  reflexivity.
Defined.

(** With no finger extended the chain still tries the Pinch rule first. *)
Lemma classify_no_finger (lm : list Landmark.t) :
  Spec.extendedCount lm = 0%nat -> Spec.thumb lm = false ->
  Spec.classify lm = if Spec.pinchClose lm then Spec.Pinch else Spec.FistNormal.
Proof.
  intros Hcount Hthumb.
  unfold Spec.classify, Spec.rules. cbn [find fst snd].
  rewrite Hcount, Hthumb. unfold Spec.extendedCount in Hcount.
  destruct (Spec.index lm), (Spec.middle lm), (Spec.ring lm), (Spec.pinky lm);
    try discriminate Hcount.
  destruct (Spec.pinchClose lm); reflexivity.
Qed.

(** C2, as stated, fails: the fist [Hands.pinchedFist] has no finger and no
    thumb extended, yet its thumb tip is 0.03 from its index tip, so the
    Pinch rule fires first and the mode stays the sticky one. *)
Lemma fist_with_close_thumb_is_pinch :
  List.length Hands.pinchedFist = 21%nat
  /\ Spec.extendedCount Hands.pinchedFist = 0%nat
  /\ Spec.thumb Hands.pinchedFist = false
  /\ detectGesture dissection Hands.pinchedFist
     = Some {| name := pinchName; gmode := dissection |}
  /\ detectGesture dissection Hands.pinchedFist
     <> Some {| name := fistName; gmode := normal |}.
Proof.
  destruct pinchedFist_fingers as (Ht & Hi & Hm & Hr & Hk).
  assert (Hd : detectGesture dissection Hands.pinchedFist
               = Some {| name := pinchName; gmode := dissection |}).
  { rewrite detectGesture_classify by reflexivity.
    rewrite classify_pinchedFist. reflexivity. }
  repeat split; try assumption.
  - unfold Spec.extendedCount. rewrite Hi, Hm, Hr, Hk. reflexivity.
  - rewrite Hd. discriminate.
Qed.

(** C2, amended.  For every hand of 21 landmarks with no non-thumb finger
    extended, the thumb not extended and the thumb tip at least 0.06 from
    the index tip, the classification is the fist, its mode is normal
    whatever the sticky mode, and the signal of the frame carries normal. *)
Theorem fist_without_pinch_is_normal
        (env : Closure) (s : State) (lm : list Landmark.t) :
  Frame.ready env ->
  List.length lm = 21%nat ->
  Spec.extendedCount lm = 0%nat ->
  Spec.thumb lm = false ->
  0.06 <= Spec.pinchDistance lm ->
  (forall gm, detectGesture gm lm = Some {| name := fistName; gmode := normal |})
  /\ exists s' c, onResults env (handFrame lm) s = (s', Some c)
                  /\ mode c = normal.
Proof.
  intros Hready Hlen Hcount Hthumb Hpinch.
  assert (Hc : Spec.classify lm = Spec.FistNormal).
  { rewrite (classify_no_finger lm Hcount Hthumb).
    now rewrite (pinchClose_false lm 0.06) by lra. }
  split.
  - intros gm. rewrite (detectGesture_classify gm lm Hlen), Hc. reflexivity.
  - rewrite (onResults_hand env lm s Hready Hlen). do 2 eexists.
    split; [reflexivity|]. rewrite Hc. reflexivity.
Qed.

Lemma fist_pinchDistance : 0.06 <= Spec.pinchDistance Hands.fist.
Proof.
  apply Rle_trans with 0.12; [lra|].
  unfold Hands.fist, Hands.hand. unfold_finger. dist_ge.
Qed.

Lemma fist_extendedCount : Spec.extendedCount Hands.fist = 0%nat.
Proof.
  destruct fist_fingers as (Ht & Hi & Hm & Hr & Hk).
  unfold Spec.extendedCount. rewrite Hi, Hm, Hr, Hk. reflexivity.
Qed.

Lemma ready_register (s : State) : Frame.ready (register s).
Proof. repeat split. Qed.

Lemma fist_without_pinch_is_normal_witness :
  (forall gm, detectGesture gm Hands.fist
              = Some {| name := fistName; gmode := normal |})
  /\ exists s' c,
       onResults (register initialState) (handFrame Hands.fist) initialState
       = (s', Some c)
       /\ mode c = normal.
Proof.
  apply (fist_without_pinch_is_normal (register initialState) initialState
                                      Hands.fist).
  - apply ready_register.
  - reflexivity.
  - exact fist_extendedCount.
  - exact (proj1 fist_fingers).
  - exact fist_pinchDistance.
Defined.

End PriorityChain.

(** ** Emission and the frame without a hand (claims C3 and C6) *)

Section Emission.

Import HandGestureController.

(** C3, as stated, fails: a frame without a hand calls [onGestureChange]
    not at all. *)
Lemma no_signal_without_hand :
  Frame.ready (register initialState)
  /\ snd (onResults (register initialState) noHandFrame initialState) = None.
Proof.
  split; [apply ready_register | reflexivity].
Qed.

(** C3, amended.  Every invocation that gets past the guards with a hand
    of 21 landmarks emits one signal, made of the rotation and zoom just
    stored and of the mode of the frame's gesture; an invocation without a
    hand emits nothing and leaves rotation and zoom as they were, so the
    signal emitted last is still the current one. *)
Theorem signal_emitted_on_hand_frames
        (env : Closure) (s : State) (lm : list Landmark.t) (r : Results) :
  Frame.ready env ->
  List.length lm = 21%nat ->
  Frame.noHand r ->
  (exists s',
     onResults env (handFrame lm) s
     = (s', Some {| rotationX := XY.x (rotationRef s');
                    rotationY := XY.y (rotationRef s');
                    zoom := zoomRef s';
                    mode := Spec.modeOf (Spec.classify lm) (gestureMode env) |}))
  /\ snd (onResults env r s) = None
  /\ rotationRef (fst (onResults env r s)) = rotationRef s
  /\ zoomRef (fst (onResults env r s)) = zoomRef s.
Proof.
  intros Hready Hlen Hno. split.
  - rewrite (onResults_hand env lm s Hready Hlen). eexists. reflexivity.
  - rewrite (onResults_noHand env r s Hready Hno). repeat split.
Qed.

Lemma signal_emitted_on_hand_frames_witness :
  (exists s',
     onResults (register initialState) (handFrame Hands.openHand) initialState
     = (s', Some {| rotationX := XY.x (rotationRef s');
                    rotationY := XY.y (rotationRef s');
                    zoom := zoomRef s';
                    mode := Spec.modeOf (Spec.classify Hands.openHand)
                                        (gestureMode (register initialState)) |}))
  /\ snd (onResults (register initialState) noHandFrame initialState) = None
  /\ rotationRef (fst (onResults (register initialState) noHandFrame initialState))
     = rotationRef initialState
  /\ zoomRef (fst (onResults (register initialState) noHandFrame initialState))
     = zoomRef initialState.
Proof.
  apply (signal_emitted_on_hand_frames (register initialState) initialState
                                       Hands.openHand noHandFrame).
  - apply ready_register.
  - reflexivity.
  - right. reflexivity.
Defined.

(** C6, as stated, fails: with the zoom at 2.5 a frame without a hand
    leaves it at 2.5; one decay step would give 2.425. *)
Lemma zoom_held_without_hand :
  let s := setZoom 2.5 initialState in
  Frame.ready (register s)
  /\ zoomRef (fst (onResults (register s) noHandFrame s)) = 2.5
  /\ zoomRef (fst (onResults (register s) noHandFrame s)) <> decayZoom 2.5.
Proof.
  cbn zeta. split; [apply ready_register|].
  split; [reflexivity|].
  cbn. unfold decayZoom. lra.
Qed.

(** C6, amended.  A frame without a hand that gets past the guards clears
    the last palm position and leaves the accumulated rotation, the mode
    and the zoom unchanged. *)
Theorem no_hand_frame_holds_state (env : Closure) (s : State) (r : Results) :
  Frame.ready env ->
  Frame.noHand r ->
  let s' := fst (onResults env r s) in
  lastHandPosRef s' = None
  /\ rotationRef s' = rotationRef s
  /\ stateGestureMode s' = stateGestureMode s
  /\ zoomRef s' = zoomRef s.
Proof.
  intros Hready Hno. rewrite (onResults_noHand env r s Hready Hno).
  repeat split.
Qed.

Lemma no_hand_frame_holds_state_witness :
  let s := setLastHandPos (Some (XY.mk 0.5 0.5)) (setZoom 2.5 initialState) in
  let s' := fst (onResults (register s) noHandFrame s) in
  lastHandPosRef s' = None
  /\ rotationRef s' = rotationRef s
  /\ stateGestureMode s' = stateGestureMode s
  /\ zoomRef s' = zoomRef s.
Proof.
  intros s.
  apply (no_hand_frame_holds_state (register s) s noHandFrame).
  - apply ready_register.
  - right. reflexivity.
Defined.

End Emission.

(** ** Zoom from the pinch distance (claim C4) *)

Section PinchZoom.

Import HandGestureController.

Lemma pinchZoom_range (d : R) : 0 <= d -> Frame.zoomInRange (pinchZoom d).
Proof.
  intros Hd. unfold Frame.zoomInRange, pinchZoom, Js.max, Js.min, Js.divide.
  destruct (Req_dec_T (d * 15) 0) as [Hz | Hz].
  - unfold Rmax. destruct (Rle_dec 0.3 2.5); lra.
  - unfold Rmax, Rmin.
    destruct (Rle_dec 2.5 (1 / (d * 15))); destruct (Rle_dec 0.3 _); lra.
Qed.

Lemma pinchZoom_clamp (d : R) :
  0 < d -> pinchZoom d = Spec.clamp (1 / (d * 15)) 0.3 2.5.
Proof.
  intros Hd. unfold pinchZoom, Spec.clamp, Js.max, Js.min, Js.divide.
  destruct (Req_dec_T (d * 15) 0) as [Hz | Hz]; [lra | reflexivity].
Qed.

Lemma pinchZoom_zero : pinchZoom 0 = 2.5.
Proof.
  unfold pinchZoom, Js.max, Js.min, Js.divide.
  destruct (Req_dec_T (0 * 15) 0) as [Hz | Hz]; [|lra].
  unfold Rmax. destruct (Rle_dec 0.3 2.5); lra.
Qed.

Lemma pinchZoom_saturates (d : R) : 0 < d -> d * 15 * 2.5 <= 1 -> pinchZoom d = 2.5.
Proof.
  intros Hd Hsmall. rewrite (pinchZoom_clamp d Hd). unfold Spec.clamp.
  assert (H : 2.5 <= 1 / (d * 15)).
  { apply (Rmult_le_reg_r (d * 15)); [lra|]. field_simplify; lra. }
  rewrite (Rmin_left _ _ H). apply Rmax_right. lra.
Qed.

(** C4.  On a frame classified Pinch the zoom becomes
    [Math.max(0.3, Math.min(2.5, 1 / (distance * 15)))] of the thumb-tip to
    index-tip distance; this is [clamp(1/(d*15), 0.3, 2.5)] for every
    positive distance [d], lies in [0.3, 2.5] for every [d >= 0], and is 2.5
    at distance 0 and at distance 0.02. *)
Theorem pinch_sets_clamped_zoom
        (env : Closure) (s : State) (lm : list Landmark.t) (d : R) :
  Frame.ready env ->
  List.length lm = 21%nat ->
  Spec.classify lm = Spec.Pinch ->
  0 <= d ->
  zoomRef (fst (onResults env (handFrame lm) s)) = pinchZoom (Spec.pinchDistance lm)
  /\ Frame.zoomInRange (zoomRef (fst (onResults env (handFrame lm) s)))
  /\ Frame.zoomInRange (pinchZoom d)
  /\ (0 < d -> pinchZoom d = Spec.clamp (1 / (d * 15)) 0.3 2.5)
  /\ pinchZoom 0 = 2.5
  /\ pinchZoom 0.02 = 2.5.
Proof.
  intros Hready Hlen Hc Hd.
  rewrite (onResults_hand env lm s Hready Hlen). cbn [fst].
  unfold Frame.afterHand. rewrite Hc. cbn [Spec.isPinch zoomRef].
  repeat split.
  - apply pinchZoom_range, distance_nonneg.
  - apply pinchZoom_range, distance_nonneg.
  - now apply pinchZoom_range.
  - now apply pinchZoom_range.
  - apply pinchZoom_clamp.
  - exact pinchZoom_zero.
  - apply pinchZoom_saturates; lra.
Qed.

(** The scenario of the specification: pinch distance 0.02, zoom 2.5. *)
Lemma pinch_sets_clamped_zoom_witness :
  Spec.pinchDistance Hands.pinch = 0.02
  /\ zoomRef (fst (onResults (register initialState) (handFrame Hands.pinch)
                             initialState))
     = pinchZoom (Spec.pinchDistance Hands.pinch)
  /\ pinchZoom 0.02 = 2.5.
Proof.
  destruct (pinch_sets_clamped_zoom (register initialState) initialState
                                    Hands.pinch 0.02)
    as (Hz & _ & _ & _ & _ & H2).
  - apply ready_register.
  - reflexivity.
  - exact classify_pinch.
  - lra.
  - split; [exact pinch_pinchDistance | split; assumption].
Defined.

End PinchZoom.

(** ** Rotation from the palm movement (claim C5) *)

Section Rotation.

Import HandGestureController.

(** C5.  On a hand frame the palm position (landmark 9) is always stored as
    the last palm position; the accumulated rotation changes only when the
    classification is Rotate-palm or Rotate-point and a previous palm
    position exists, by [y += delta.x * 10] and [x -= delta.y * 10]; for
    every other classification, and on the first frame after the hand
    reappears, it is unchanged. *)
Theorem rotation_follows_palm_on_rotate_gestures
        (env : Closure) (s : State) (lm : list Landmark.t) :
  Frame.ready env ->
  List.length lm = 21%nat ->
  let s' := fst (onResults env (handFrame lm) s) in
  let palm := Spec.at_ lm 9 in
  lastHandPosRef s' = Some (XY.mk (Landmark.x palm) (Landmark.y palm))
  /\ (forall last,
        lastHandPosRef s = Some last ->
        Spec.rotateCapable (Spec.classify lm) = true ->
        XY.y (rotationRef s')
        = XY.y (rotationRef s) + (Landmark.x palm - XY.x last) * 10
        /\ XY.x (rotationRef s')
           = XY.x (rotationRef s) - (Landmark.y palm - XY.y last) * 10)
  /\ (Spec.rotateCapable (Spec.classify lm) = false ->
      rotationRef s' = rotationRef s)
  /\ (lastHandPosRef s = None -> rotationRef s' = rotationRef s).
Proof.
  intros Hready Hlen. rewrite (onResults_hand env lm s Hready Hlen).
  cbn [fst]. unfold Frame.afterHand. cbn [lastHandPosRef rotationRef].
  split; [reflexivity|]. split; [|split].
  - intros last Hlast Hc. rewrite Hlast, Hc. split; reflexivity.
  - intros Hc. rewrite Hc. now destruct (lastHandPosRef s).
  - intros Hnone. now rewrite Hnone.
Qed.

Lemma rotation_follows_palm_on_rotate_gestures_witness :
  let s := setLastHandPos (Some (XY.mk 0.5 0.5)) initialState in
  let lm := Hands.pointing 0.6 0.4 in
  let s' := fst (onResults (register s) (handFrame lm) s) in
  Spec.classify lm = Spec.PointingRotate
  /\ lastHandPosRef s' = Some (XY.mk 0.6 0.4)
  /\ XY.y (rotationRef s') = 0 + (0.6 - 0.5) * 10
  /\ XY.x (rotationRef s') = 0 - (0.4 - 0.5) * 10.
Proof.
  intros s lm s'.
  destruct (rotation_follows_palm_on_rotate_gestures (register s) s lm)
    as (Hlast & Hrot & _ & _).
  - apply ready_register.
  - reflexivity.
  - split; [apply classify_pointing|].
    split; [exact Hlast|].
    apply (Hrot (XY.mk 0.5 0.5)); [reflexivity|].
    unfold lm. now rewrite classify_pointing.
Defined.

End Rotation.

(** ** Zoom over a run of frames (claims C7 and C10) *)

Section ZoomRuns.

Import HandGestureController.

Lemma run_cons (env : Closure) (r : Results) (rest : list Results) (s : State) :
  fst (run env (r :: rest) s) = fst (run env rest (fst (onResults env r s)))
  /\ snd (run env (r :: rest) s)
     = match snd (onResults env r s) with
       | Some c => c :: snd (run env rest (fst (onResults env r s)))
       | None => snd (run env rest (fst (onResults env r s)))
       end.
Proof.
  cbn [run]. destruct (onResults env r s) as [s1 out]. cbn [fst snd].
  destruct (run env rest s1) as [s2 outs]. split; reflexivity.
Qed.

Lemma nonPinch_step (env : Closure) (s : State) (lm : list Landmark.t) :
  Frame.ready env -> Frame.nonPinchHand lm ->
  zoomRef (fst (onResults env (handFrame lm) s)) = decayZoom (zoomRef s).
Proof.
  intros Hready (Hlen & Hc).
  rewrite (onResults_hand env lm s Hready Hlen). cbn [fst].
  unfold Frame.afterHand. cbn [zoomRef].
  destruct (Spec.classify lm); try reflexivity. now elim Hc.
Qed.

(** The closed form of the zoom after a run of non-pinch hand frames. *)
Lemma nonPinch_run (env : Closure) (lms : list (list Landmark.t)) :
  Frame.ready env -> Forall Frame.nonPinchHand lms ->
  forall s,
    zoomRef (fst (run env (map handFrame lms) s))
    = 1 + 0.95 ^ List.length lms * (zoomRef s - 1).
Proof.
  intros Hready Hall. induction Hall as [|lm lms Hlm Hall IH]; intros s.
  - cbn. lra.
  - cbn [map]. rewrite (proj1 (run_cons _ _ _ _)), IH.
    rewrite (nonPinch_step env s lm Hready Hlm).
    unfold decayZoom. cbn [List.length pow]. lra.
Qed.

Lemma pow95_bounds (n : nat) : 0 < 0.95 ^ n <= 1.
Proof.
  induction n as [|n IH]; cbn [pow]; lra.
Qed.

Lemma pow95_after_98 (n : nat) : (98 <= n)%nat -> 0.95 ^ n * 1.5 <= 0.01.
Proof.
  intros Hn. replace n with (98 + (n - 98))%nat by lia.
  rewrite pow_add. pose proof (pow95_bounds (n - 98)) as Hb.
  assert (H98 : 0 < 0.95 ^ 98 /\ 0.95 ^ 98 * 1.5 <= 0.01) by (split; lra).
  nra.
Qed.

Lemma Forall_firstn {A : Type} (P : A -> Prop) (n : nat) (l : list A) :
  Forall P l -> Forall P (firstn n l).
Proof.
  intros H. revert n. induction H as [|a l Ha Hl IH]; intros [|n]; cbn;
    constructor; auto.
Qed.

(** C7, as stated, fails: starting at 2.5, ninety fist frames leave the zoom
    more than 0.01 above 1.0; so do ninety-seven. *)
Lemma zoom_not_settled_after_90_frames :
  let s := setZoom 2.5 initialState in
  Frame.zoomInRange (zoomRef s)
  /\ Frame.nonPinchHand Hands.fist
  /\ 0.01 < Rabs (zoomRef (fst (run (register s)
                                    (map handFrame (repeat Hands.fist 90)) s)) - 1)
  /\ 0.01 < Rabs (zoomRef (fst (run (register s)
                                    (map handFrame (repeat Hands.fist 97)) s)) - 1).
Proof.
  intros s.
  assert (Hfist : Frame.nonPinchHand Hands.fist).
  { split; [reflexivity | rewrite classify_fist; discriminate]. }
  assert (Hrun : forall n,
             zoomRef (fst (run (register s) (map handFrame (repeat Hands.fist n)) s))
             = 1 + 0.95 ^ n * 1.5).
  { intros n. rewrite nonPinch_run.
    - rewrite repeat_length. cbn. f_equal. lra.
    - apply ready_register.
    - apply Forall_forall. intros lm Hin.
      apply repeat_spec in Hin. now subst lm. }
  split; [cbn; unfold Frame.zoomInRange; lra|].
  split; [exact Hfist|].
  rewrite !Hrun. split; rewrite Rabs_pos_eq; lra.
Qed.

(** C7, amended.  Over successive hand frames not classified Pinch the zoom
    is replaced by [zoom * 0.95 + 1.0 * 0.05] each frame; from every start
    in [0.3, 2.5] it moves monotonically towards 1.0 without crossing it,
    strictly unless it equals 1.0, and it is within 0.01 of 1.0 after 98
    frames (after 90 frames it is within 0.015). *)
Theorem zoom_decays_towards_one
        (env : Closure) (s : State) (lms : list (list Landmark.t)) :
  Frame.ready env ->
  Frame.zoomInRange (zoomRef s) ->
  Forall Frame.nonPinchHand lms ->
  let z (n : nat) := zoomRef (fst (run env (map handFrame (firstn n lms)) s)) in
  (forall n, (n < List.length lms)%nat ->
     z (S n) = z n * 0.95 + 1.0 * 0.05
     /\ (z n <= z (S n) <= 1 \/ 1 <= z (S n) <= z n)
     /\ (z n <> 1 -> Rabs (z (S n) - 1) < Rabs (z n - 1)))
  /\ (forall n, (98 <= n <= List.length lms)%nat -> Rabs (z n - 1) <= 0.01)
  /\ (forall n, (90 <= n <= List.length lms)%nat -> Rabs (z n - 1) <= 0.015).
Proof.
  intros Hready Hrange Hall z.
  assert (Hz : forall n, (n <= List.length lms)%nat ->
                         z n = 1 + 0.95 ^ n * (zoomRef s - 1)).
  { intros n Hn. unfold z. rewrite nonPinch_run.
    - rewrite length_firstn, Nat.min_l by exact Hn. reflexivity.
    - exact Hready.
    - now apply Forall_firstn. }
  unfold Frame.zoomInRange in Hrange.
  split; [|split].
  - intros n Hn. rewrite (Hz (S n)), (Hz n) by lia.
    pose proof (pow95_bounds n) as Hb. cbn [pow].
    set (p := 0.95 ^ n) in *. set (d := zoomRef s - 1) in *.
    split; [lra|]. split.
    + destruct (Rle_dec d 0); [left | right]; nra.
    + intros Hne. assert (Hd : d <> 0) by (intros H0; apply Hne; rewrite H0; lra).
      replace (1 + 0.95 * p * d - 1) with (0.95 * (p * d)) by ring.
      replace (1 + p * d - 1) with (p * d) by ring.
      rewrite Rabs_mult, (Rabs_pos_eq 0.95) by lra.
      assert (0 < Rabs (p * d)) by (apply Rabs_pos_lt; nra).
      lra.
  - intros n Hn. rewrite (Hz n) by lia.
    pose proof (pow95_after_98 n (proj1 Hn)) as H98.
    pose proof (pow95_bounds n) as Hb.
    replace (1 + 0.95 ^ n * (zoomRef s - 1) - 1) with (0.95 ^ n * (zoomRef s - 1))
      by ring.
    apply Rabs_le. split; nra.
  - intros n Hn. rewrite (Hz n) by lia.
    assert (H90 : 0.95 ^ n * 1.5 <= 0.015).
    { replace n with (90 + (n - 90))%nat by lia.
      rewrite pow_add. pose proof (pow95_bounds (n - 90)) as Hb.
      assert (H : 0 < 0.95 ^ 90 /\ 0.95 ^ 90 * 1.5 <= 0.015) by (split; lra).
      nra. }
    pose proof (pow95_bounds n) as Hb.
    replace (1 + 0.95 ^ n * (zoomRef s - 1) - 1) with (0.95 ^ n * (zoomRef s - 1))
      by ring.
    apply Rabs_le. split; nra.
Qed.

Lemma zoom_decays_towards_one_witness :
  let s := setZoom 2.5 initialState in
  let z (n : nat) :=
    zoomRef (fst (run (register s)
                      (map handFrame (firstn n (repeat Hands.fist 98))) s)) in
  z 1%nat = z 0%nat * 0.95 + 1.0 * 0.05 /\ Rabs (z 98%nat - 1) <= 0.01.
Proof.
  intros s z.
  destruct (zoom_decays_towards_one (register s) s (repeat Hands.fist 98))
    as (Hstep & H98 & _).
  - apply ready_register.
  - cbn. unfold Frame.zoomInRange. lra.
  - apply Forall_forall. intros lm Hin. apply repeat_spec in Hin. subst lm.
    split; [reflexivity | rewrite classify_fist; discriminate].
  - split.
    + apply (Hstep 0%nat). rewrite repeat_length. lia.
    + apply (H98 98%nat). rewrite repeat_length. lia.
Defined.

End ZoomRuns.

Section ZoomInvariant.

Import HandGestureController.

Lemma decayZoom_range (z : R) :
  Frame.zoomInRange z -> Frame.zoomInRange (decayZoom z).
Proof.
  unfold Frame.zoomInRange, decayZoom. lra.
Qed.

(** Whatever the landmarks are, a hand frame that does not throw stores
    either the clamped pinch zoom or one decay step, and emits what it
    stored. *)
Lemma handDetected_zoom (env : Closure) (lm : list Landmark.t)
      (s s' : State) (c : GestureControls) :
  handDetected env lm s = Some (s', c) ->
  zoom c = zoomRef s'
  /\ ((exists d, 0 <= d /\ zoomRef s' = pinchZoom d)
      \/ zoomRef s' = decayZoom (zoomRef s)).
Proof.
  unfold handDetected. intros H.
  destruct (detectGesture (gestureMode env) lm) as [g|]; [|discriminate H].
  cbn [Js.bind] in H.
  destruct (nth_error lm 9) as [palm|]; [|discriminate H].
  cbn [Js.bind] in H.
  destruct (Js.includes (name g) "Pinch").
  - destruct (nth_error lm 4) as [thumbTip|]; [|discriminate H].
    destruct (nth_error lm 8) as [indexTip|]; [|discriminate H].
    cbn [Js.bind] in H. injection H as <- <-. cbn [zoom zoomRef setZoom].
    split; [reflexivity|]. left. eexists. split; [apply sqrt_pos | reflexivity].
  - cbn [Js.bind] in H. injection H as <- <-. cbn [zoom zoomRef setZoom].
    split; [reflexivity|]. right. f_equal.
    repeat match goal with
           | |- context [match ?x with _ => _ end] => destruct x
           end; reflexivity.
Qed.

Lemma onResults_zoom (env : Closure) (r : Results) (s : State) :
  Frame.zoomInRange (zoomRef s) ->
  Frame.zoomInRange (zoomRef (fst (onResults env r s)))
  /\ forall c, snd (onResults env r s) = Some c -> Frame.zoomInRange (zoom c).
Proof.
  intros Hs. unfold onResults.
  destruct (negb (canvasRef_current env) || negb (enabled env));
    [split; [exact Hs | discriminate]|].
  destruct (negb (canvasCtx env)); [split; [exact Hs | discriminate]|].
  destruct (multiHandLandmarks r) as [[|lm rest]|];
    try (split; [exact Hs | discriminate]).
  destruct (handDetected env lm s) as [[s' c]|] eqn:Hh;
    [|split; [exact Hs | discriminate]].
  destruct (handDetected_zoom env lm s s' c Hh) as (Hc & Hz).
  assert (Hs' : Frame.zoomInRange (zoomRef s')).
  { destruct Hz as [(d & Hd & ->) | ->];
      [now apply pinchZoom_range | now apply decayZoom_range]. }
  cbn [fst snd]. split; [exact Hs'|].
  intros c' Hc'. injection Hc' as <-. now rewrite Hc.
Qed.

Lemma run_zoom (env : Closure) (frames : list Results) :
  forall s,
    Frame.zoomInRange (zoomRef s) ->
    Frame.zoomInRange (zoomRef (fst (run env frames s)))
    /\ Forall (fun c => Frame.zoomInRange (zoom c)) (snd (run env frames s)).
Proof.
  induction frames as [|r rest IH]; intros s Hs.
  - cbn. split; [exact Hs | constructor].
  - destruct (run_cons env r rest s) as (-> & ->).
    destruct (onResults_zoom env r s Hs) as (H1 & Hout).
    destruct (IH _ H1) as (H2 & Houts). split; [exact H2|].
    destruct (snd (onResults env r s)) as [c|]; [|exact Houts].
    constructor; [now apply Hout | exact Houts].
Qed.

(** What one call of [onResults] can do to the zoom. *)
Lemma onResults_zoom_cases (env : Closure) (r : Results) (s : State) :
  zoomRef (fst (onResults env r s)) = zoomRef s
  \/ zoomRef (fst (onResults env r s)) = decayZoom (zoomRef s)
  \/ exists d, 0 <= d /\ zoomRef (fst (onResults env r s)) = pinchZoom d.
Proof.
  unfold onResults.
  destruct (negb (canvasRef_current env) || negb (enabled env)); [now left|].
  destruct (negb (canvasCtx env)); [now left|].
  destruct (multiHandLandmarks r) as [[|lm rest]|]; try now left.
  destruct (handDetected env lm s) as [[s' c]|] eqn:Hh; [|now left].
  destruct (handDetected_zoom env lm s s' c Hh) as (_ & [Hp | Hd]);
    cbn [fst]; [right; right; exact Hp | right; left; exact Hd].
Qed.

(** C10.  Starting from the initial state, whose zoom is 1, the zoom stays
    in [0.3, 2.5] after every sequence of calls of [onResults], whatever the
    frames hold and whatever the callback sees, and so does the zoom of every
    signal emitted on the way: a call stores the clamped pinch zoom, which is
    in the range for every distance [d >= 0], or one decay step
    [0.95 * zoom + 0.05], which maps the range into itself, or leaves the
    zoom as it was. *)
Theorem zoom_range_invariant
        (env : Closure) (frames : list Results) (z d : R) :
  Frame.zoomInRange z ->
  0 <= d ->
  zoomRef initialState = 1
  /\ Frame.zoomInRange (zoomRef (fst (run env frames initialState)))
  /\ Forall (fun c => Frame.zoomInRange (zoom c))
            (snd (run env frames initialState))
  /\ Frame.zoomInRange (pinchZoom d)
  /\ Frame.zoomInRange (decayZoom z)
  /\ decayZoom z = 0.95 * z + 0.05
  /\ (forall r s,
        zoomRef (fst (onResults env r s)) = zoomRef s
        \/ zoomRef (fst (onResults env r s)) = decayZoom (zoomRef s)
        \/ exists d', 0 <= d' /\ zoomRef (fst (onResults env r s)) = pinchZoom d').
Proof.
  intros Hz Hd.
  split; [reflexivity|].
  assert (H1 : Frame.zoomInRange (zoomRef initialState))
    by (cbn; unfold Frame.zoomInRange; lra).
  destruct (run_zoom env frames initialState H1) as (Hs & Hout).
  split; [exact Hs|]. split; [exact Hout|].
  split; [now apply pinchZoom_range|].
  split; [now apply decayZoom_range|].
  split; [unfold decayZoom; lra|].
  intros r s. apply onResults_zoom_cases.
Qed.

(** A pinch with the tips touching, a fist, a frame without a hand. *)
Lemma zoom_range_invariant_witness :
  let frames := [handFrame Hands.pinchTouching; handFrame Hands.fist; noHandFrame] in
  Frame.zoomInRange (zoomRef (fst (run (register initialState) frames initialState)))
  /\ Frame.zoomInRange (pinchZoom 0)
  /\ Frame.zoomInRange (decayZoom 2.5).
Proof.
  intros frames.
  destruct (zoom_range_invariant (register initialState) frames 2.5 0)
    as (_ & Hs & _ & Hp & Hd & _).
  - unfold Frame.zoomInRange. lra.
  - lra.
  - split; [exact Hs | split; [exact Hp | exact Hd]].
Defined.

End ZoomInvariant.

(** ** The sticky mode (claim C8) *)

Section StickyMode.

Import HandGestureController.

(** On a frame whose classification carries no mode, the reported mode is
    the [gestureMode] the registered callback reads, and the hook state is
    not written. *)
Lemma sticky_frame_reports_closure_mode
      (env : Closure) (s : State) (lm : list Landmark.t) :
  Frame.ready env ->
  List.length lm = 21%nat ->
  Spec.modeOf (Spec.classify lm) (gestureMode env) = gestureMode env ->
  (exists s', onResults env (handFrame lm) s
              = (s', Some (Frame.signalOf s' (gestureMode env))))
  /\ stateGestureMode (fst (onResults env (handFrame lm) s)) = stateGestureMode s.
Proof.
  intros Hready Hlen Hsticky.
  rewrite (onResults_hand env lm s Hready Hlen), Hsticky. split.
  - eexists. reflexivity.
  - cbn [fst]. unfold Frame.afterHand. cbn [stateGestureMode].
    rewrite Hsticky. now destruct (gestureMode env).
Qed.

(** C8 at the failing input.  Gestures are switched on in the initial
    state, so the callback reads [gestureMode = normal] for the whole
    enabling.  An open hand, then a pinch: the open hand reports dissection
    and sets the hook state to dissection; the pinch is classified Pinch and
    reports normal, not the dissection of the frame before. *)
Theorem pinch_after_open_hand_reports_stale_mode :
  let env := register initialState in
  let frames := [handFrame Hands.openHand; handFrame Hands.pinch] in
  Spec.classify Hands.openHand = Spec.OpenHandDissection
  /\ Spec.classify Hands.pinch = Spec.Pinch
  /\ map mode (snd (run env frames initialState)) = [dissection; normal]
  /\ stateGestureMode (fst (run env frames initialState)) = dissection.
Proof.
  intros env frames.
  split; [exact classify_openHand|]. split; [exact classify_pinch|].
  unfold frames.
  destruct (run_cons env (handFrame Hands.openHand) [handFrame Hands.pinch]
                     initialState) as (-> & ->).
  rewrite (onResults_hand env Hands.openHand initialState)
    by (try apply ready_register; reflexivity).
  cbn [fst snd].
  set (s1 := Frame.afterHand env Hands.openHand initialState).
  destruct (run_cons env (handFrame Hands.pinch) [] s1) as (-> & ->).
  rewrite (onResults_hand env Hands.pinch s1)
    by (try apply ready_register; reflexivity).
  cbn [fst snd run map Frame.signalOf mode].
  unfold s1, Frame.afterHand. cbn [stateGestureMode].
  rewrite classify_openHand, classify_pinch. split; reflexivity.
Qed.

End StickyMode.

(** ** The viewer under gesture control (claim C9) *)

Section GestureDrivenViewer.

Import Viewer.

Lemma animate_gesture (organ : option string) (s : State)
      (c : GestureControls) (m : Mesh) :
  gestureEnabledRef s = true ->
  gestureControlsRef s = Some c ->
  meshRef s = Some m ->
  animate organ s
  = setMesh {| rotation := Vec3.mk (rotationX c) (rotationY c)
                                   (Vec3.z (rotation m));
               scale := Frame.scaled (modelScale organ) (zoom c) |} s.
Proof.
  intros He Hc Hm. unfold animate. rewrite He, Hc, Hm.
  unfold modelScale, Frame.scaled. cbn [Vec3.x Vec3.y Vec3.z].
  destruct (isBrain organ); reflexivity.
Qed.

(** While the flag is set, no event clears it, replaces the signal, unloads
    the mesh or touches the one Euler angle the signal does not set. *)
Lemma step_keeps_gesture_mode (organ : option string) (ev : Event) (s : State)
      (c : GestureControls) (m : Mesh) :
  gestureEnabledRef s = true ->
  gestureControlsRef s = Some c ->
  meshRef s = Some m ->
  gestureEnabledRef (step organ ev s) = true
  /\ gestureControlsRef (step organ ev s) = Some c
  /\ exists m', meshRef (step organ ev s) = Some m'
                /\ Vec3.z (rotation m') = Vec3.z (rotation m).
Proof.
  intros He Hc Hm. destruct ev as [|e|e|]; cbn [step].
  - rewrite (animate_gesture organ s c m He Hc Hm).
    cbn. repeat split; try assumption. eexists. split; reflexivity.
  - unfold onMouseDown. rewrite He. repeat split; try assumption.
    exists m. split; [assumption | reflexivity].
  - unfold onMouseMove. rewrite Hm, He. cbn [orb].
    repeat split; try assumption. exists m. split; [assumption | reflexivity].
  - cbn. repeat split; try assumption.
    exists m. split; [assumption | reflexivity].
Qed.

Lemma run_keeps_gesture_mode (organ : option string) (evs : list Event) :
  forall (s : State) (c : GestureControls) (m : Mesh),
    gestureEnabledRef s = true ->
    gestureControlsRef s = Some c ->
    meshRef s = Some m ->
    gestureEnabledRef (run organ evs s) = true
    /\ gestureControlsRef (run organ evs s) = Some c
    /\ exists m', meshRef (run organ evs s) = Some m'
                  /\ Vec3.z (rotation m') = Vec3.z (rotation m).
Proof.
  induction evs as [|ev evs IH]; intros s c m He Hc Hm.
  - cbn. repeat split; try assumption. exists m. split; [assumption | reflexivity].
  - cbn [run fold_left].
    destruct (step_keeps_gesture_mode organ ev s c m He Hc Hm)
      as (He1 & Hc1 & m1 & Hm1 & Hz1).
    destruct (IH _ c m1 He1 Hc1 Hm1) as (He2 & Hc2 & m2 & Hm2 & Hz2).
    repeat split; try assumption. exists m2. split; [assumption | congruence].
Qed.

(** C9.  With the gesture flag set, a signal present and the model loaded,
    a render tick sets the mesh's x and y rotation to the signal's
    [rotationX] and [rotationY] and its scale to the scale the asset was
    loaded with (1000 for the heart, 0.1 for the brain) times the signal's
    zoom on each axis, whatever the pose before and whatever mouse events
    and ticks came before under the flag; the mouse handlers change nothing
    under the flag, and the tick's result holds no idle increment. *)
Theorem gesture_tick_sets_absolute_pose
        (organ : option string) (s : State) (c : GestureControls) (m : Mesh)
        (evs : list Event) :
  gestureEnabledRef s = true ->
  gestureControlsRef s = Some c ->
  meshRef s = Some m ->
  let posed :=
    {| rotation := Vec3.mk (rotationX c) (rotationY c) (Vec3.z (rotation m));
       scale := Frame.scaled (modelScale organ) (zoom c) |} in
  meshRef (animate organ s) = Some posed
  /\ meshRef (run organ (evs ++ [Tick]) s) = Some posed
  /\ (forall e, onMouseDown e s = s /\ onMouseMove e s = s)
  /\ meshRef (onMouseUp s) = meshRef s
  /\ modelScale (Some "heart") = Vec3.mk 1000 1000 1000
  /\ modelScale (Some "brain") = Vec3.mk 0.1 0.1 0.1.
Proof.
  intros He Hc Hm posed. split; [|split; [|split; [|split; [|split]]]].
  - now rewrite (animate_gesture organ s c m He Hc Hm).
  - unfold run. rewrite fold_left_app. cbn [fold_left step].
    destruct (run_keeps_gesture_mode organ evs s c m He Hc Hm)
      as (He' & Hc' & m' & Hm' & Hz').
    fold (run organ evs s).
    rewrite (animate_gesture organ _ c m' He' Hc' Hm'). cbn [setMesh meshRef].
    unfold posed. now rewrite Hz'.
  - intros e. unfold onMouseDown, onMouseMove. rewrite He, Hm. split; reflexivity.
  - reflexivity.
  - reflexivity.
  - reflexivity.
Qed.

Lemma gesture_tick_sets_absolute_pose_witness :
  let c := {| rotationX := 0.2; rotationY := -0.4; zoom := 1.5; mode := normal |} in
  let m := {| rotation := Vec3.mk 0.3 0.7 0; scale := modelScale (Some "heart") |} in
  let s := {| meshRef := Some m; isDragging := true;
              previousMousePosition := XY.mk 10 10;
              gestureEnabledRef := true; gestureControlsRef := Some c |} in
  let e := {| clientX := 40; clientY := 25 |} in
  meshRef (run (Some "heart") ([MouseDown e; MouseMove e; Tick; MouseUp] ++ [Tick]) s)
  = Some {| rotation := Vec3.mk 0.2 (-0.4) 0;
            scale := Frame.scaled (Vec3.mk 1000 1000 1000) 1.5 |}.
Proof.
  intros c m s e.
  exact (proj1 (proj2 (gesture_tick_sets_absolute_pose
                         (Some "heart") s c m [MouseDown e; MouseMove e; Tick; MouseUp]
                         eq_refl eq_refl eq_refl))).
Defined.

End GestureDrivenViewer.

(** * Further properties of the interpreter *)

(** ** Hands of any length *)

Section AnyLength.

Import HandGestureController.

Lemma length_ge_21 (lm : list Landmark.t) :
  (21 <= List.length lm)%nat ->
  exists p0 p1 p2 p3 p4 p5 p6 p7 p8 p9 p10 p11 p12 p13 p14 p15 p16 p17 p18
         p19 p20 rest,
    lm = p0 :: p1 :: p2 :: p3 :: p4 :: p5 :: p6 :: p7 :: p8 :: p9 :: p10
            :: p11 :: p12 :: p13 :: p14 :: p15 :: p16 :: p17 :: p18 :: p19
            :: p20 :: rest.
Proof.
  intros H.
  do 21 (destruct lm as [|? lm]; [cbn in H; lia|]).
  repeat eexists.
Qed.

(** With 21 landmarks or more the classifier returns; what lies past
    landmark 20 is not read. *)
Lemma detectGesture_classify_ge (gm : Mode) (lm : list Landmark.t) :
  (21 <= List.length lm)%nat ->
  detectGesture gm lm = Some (Spec.gestureOf (Spec.classify lm) gm).
Proof.
  intros H. destruct (length_ge_21 lm H) as
    (p0 & p1 & p2 & p3 & p4 & p5 & p6 & p7 & p8 & p9 & p10 & p11 & p12 & p13
     & p14 & p15 & p16 & p17 & p18 & p19 & p20 & rest & ->).
  unfold detectGesture. cbn [nth_error Js.bind].
  rewrite !gt_extended, lt_pinchClose.
  unfold Spec.classify, Spec.rules. cbn [find fst snd].
  unfold Spec.extendedCount, Spec.pinchClose, Spec.pinchDistance,
    Spec.thumb, Spec.index, Spec.middle, Spec.ring, Spec.pinky, Spec.at_.
  cbn [nth].
  destruct (Rlt_dec (Spec.distance p4 p8) 0.06);
    destruct (Spec.extended p0 p4 p2), (Spec.extended p0 p8 p5),
      (Spec.extended p0 p12 p9), (Spec.extended p0 p16 p13),
      (Spec.extended p0 p20 p17); reflexivity.
Qed.

(** With fewer than 21 landmarks, reading the pinky tip throws. *)
Lemma detectGesture_short (gm : Mode) (lm : list Landmark.t) :
  (List.length lm < 21)%nat -> detectGesture gm lm = None.
Proof.
  intros H. assert (H20 : nth_error lm 20 = None)
    by (apply nth_error_None; lia).
  unfold detectGesture.
  destruct (nth_error lm 4); [|reflexivity].
  destruct (nth_error lm 8); [|reflexivity].
  destruct (nth_error lm 12); [|reflexivity].
  destruct (nth_error lm 16); [|reflexivity].
  rewrite H20. reflexivity.
Qed.

Lemma classify_firstn (lm : list Landmark.t) :
  (21 <= List.length lm)%nat -> Spec.classify (firstn 21 lm) = Spec.classify lm.
Proof.
  intros H. destruct (length_ge_21 lm H) as
    (p0 & p1 & p2 & p3 & p4 & p5 & p6 & p7 & p8 & p9 & p10 & p11 & p12 & p13
     & p14 & p15 & p16 & p17 & p18 & p19 & p20 & rest & ->).
  reflexivity.
Qed.

(** X1.  [detectGesture] throws exactly on the hands of fewer than 21
    landmarks, and on every hand it gives what it gives on the first 21
    landmarks. *)
Theorem detectGesture_reads_21_landmarks (gm : Mode) (lm : list Landmark.t) :
  (detectGesture gm lm = None <-> (List.length lm < 21)%nat)
  /\ detectGesture gm lm = detectGesture gm (firstn 21 lm).
Proof.
  destruct (Nat.lt_ge_cases (List.length lm) 21) as [Hlt | Hge].
  - split.
    + split; [intros _; exact Hlt | intros _; now apply detectGesture_short].
    + rewrite firstn_all2 by lia. reflexivity.
  - split.
    + rewrite (detectGesture_classify_ge gm lm Hge).
      split; [discriminate | lia].
    + rewrite (detectGesture_classify_ge gm lm Hge).
      rewrite detectGesture_classify_ge
        by (rewrite length_firstn; lia).
      now rewrite (classify_firstn lm Hge).
Qed.

(** The state and the signal of a hand frame, for every hand that does not
    make the classifier throw and whatever other hands the frame lists. *)
Lemma onResults_hand_ge (env : Closure) (lm : list Landmark.t)
      (others : list (list Landmark.t)) (s : State) :
  Frame.ready env -> (21 <= List.length lm)%nat ->
  onResults env {| multiHandLandmarks := Some (lm :: others) |} s
  = (Frame.afterHand env lm s,
     Some (Frame.signalOf (Frame.afterHand env lm s)
                          (Spec.modeOf (Spec.classify lm) (gestureMode env)))).
Proof.
  intros (Hc & Hx & He) Hlen.
  unfold onResults. rewrite Hc, Hx, He. cbn [negb orb multiHandLandmarks].
  unfold handDetected. rewrite (detectGesture_classify_ge _ _ Hlen).
  cbn [Js.bind Spec.gestureOf name gmode].
  rewrite includes_rotate, includes_pinch.
  unfold Frame.afterHand, Frame.signalOf, Spec.pinchDistance, Spec.at_.
  destruct (length_ge_21 lm Hlen) as
    (p0 & p1 & p2 & p3 & p4 & p5 & p6 & p7 & p8 & p9 & p10 & p11 & p12 & p13
     & p14 & p15 & p16 & p17 & p18 & p19 & p20 & rest & Hlm).
  set (c := Spec.classify lm). clearbody c. subst lm.
  cbn [nth_error nth Js.bind].
  destruct (Mode_eqb (Spec.modeOf c (gestureMode env)) (gestureMode env));
    cbn [negb];
    destruct (lastHandPosRef s) as [last|] eqn:Hlast;
    cbn [setCurrentGesture setGestureMode setRotation setZoom setLastHandPos
         lastHandPosRef rotationRef zoomRef stateGestureMode
         stateCurrentGesture];
    rewrite ?Hlast;
    destruct (Spec.rotateCapable c); destruct (Spec.isPinch c);
    cbn [Js.bind setCurrentGesture setGestureMode setRotation setZoom
         setLastHandPos lastHandPosRef rotationRef zoomRef stateGestureMode
         stateCurrentGesture XY.x XY.y];
    unfold Frame.rotated; reflexivity.
Qed.

(** A hand that makes the classifier throw leaves no trace. *)
Lemma onResults_hand_short (env : Closure) (lm : list Landmark.t)
      (others : list (list Landmark.t)) (s : State) :
  (List.length lm < 21)%nat ->
  onResults env {| multiHandLandmarks := Some (lm :: others) |} s = (s, None).
Proof.
  intros Hlen. unfold onResults.
  destruct (negb (canvasRef_current env) || negb (enabled env)); [reflexivity|].
  destruct (negb (canvasCtx env)); [reflexivity|].
  cbn [multiHandLandmarks]. unfold handDetected.
  now rewrite (detectGesture_short _ _ Hlen).
Qed.

End AnyLength.

(** ** What the classification depends on *)

Section Invariance.

Import HandGestureController.

Lemma at_map (f : Landmark.t -> Landmark.t) (lm : list Landmark.t) (i : nat) :
  (i < List.length lm)%nat -> Spec.at_ (map f lm) i = f (Spec.at_ lm i).
Proof.
  intros Hi. unfold Spec.at_.
  rewrite (nth_indep _ _ (f (Landmark.mk 0 0 0)))
    by (rewrite length_map; exact Hi).
  apply map_nth.
Qed.

(** A map of the landmarks that keeps their distances in the image plane
    keeps the classification. *)
Lemma classify_isometry (f : Landmark.t -> Landmark.t) (lm : list Landmark.t) :
  (forall p q, Spec.distance (f p) (f q) = Spec.distance p q) ->
  (21 <= List.length lm)%nat ->
  Spec.classify (map f lm) = Spec.classify lm.
Proof.
  intros Hf Hlen.
  unfold Spec.classify, Spec.rules, Spec.extendedCount, Spec.pinchClose,
    Spec.pinchDistance, Spec.thumb, Spec.index, Spec.middle, Spec.ring,
    Spec.pinky, Spec.extended.
  cbn [find fst snd].
  rewrite !at_map by lia. rewrite !Hf. reflexivity.
Qed.

Lemma detectGesture_isometry (f : Landmark.t -> Landmark.t) (gm : Mode)
      (lm : list Landmark.t) :
  (forall p q, Spec.distance (f p) (f q) = Spec.distance p q) ->
  detectGesture gm (map f lm) = detectGesture gm lm.
Proof.
  intros Hf. destruct (Nat.lt_ge_cases (List.length lm) 21) as [Hlt | Hge].
  - rewrite !detectGesture_short; [reflexivity | exact Hlt |].
    now rewrite length_map.
  - rewrite !detectGesture_classify_ge; [| exact Hge |].
    + now rewrite (classify_isometry f lm Hf Hge).
    + now rewrite length_map.
Qed.

Lemma translate_isometry (dx dy : R) (p q : Landmark.t) :
  Spec.distance (Geometry.translate dx dy p) (Geometry.translate dx dy q)
  = Spec.distance p q.
Proof. unfold Spec.distance, Geometry.translate. cbn. f_equal. ring. Qed.

Lemma mirror_isometry (p q : Landmark.t) :
  Spec.distance (Geometry.mirror p) (Geometry.mirror q) = Spec.distance p q.
Proof. unfold Spec.distance, Geometry.mirror. cbn. f_equal. ring. Qed.

Lemma withDepth_isometry (depth : Landmark.t -> R) (p q : Landmark.t) :
  Spec.distance (Geometry.withDepth depth p) (Geometry.withDepth depth q)
  = Spec.distance p q.
Proof. reflexivity. Qed.

(** X2.  The gesture of a hand does not change when the whole hand is moved
    across the image, mirrored left to right, or given other depths: the
    classifier reads differences of image coordinates only. *)
Theorem detectGesture_ignores_position_and_depth
        (gm : Mode) (lm : list Landmark.t) (dx dy : R)
        (depth : Landmark.t -> R) :
  detectGesture gm (map (Geometry.translate dx dy) lm) = detectGesture gm lm
  /\ detectGesture gm (map Geometry.mirror lm) = detectGesture gm lm
  /\ detectGesture gm (map (Geometry.withDepth depth) lm) = detectGesture gm lm.
Proof.
  split; [|split]; apply detectGesture_isometry; intros p q.
  - apply translate_isometry.
  - apply mirror_isometry.
  - apply withDepth_isometry.
Qed.

(** The Pinch rule needs a short pinch distance and the three outer fingers
    folded. *)
Lemma classify_Pinch_inv (lm : list Landmark.t) :
  Spec.classify lm = Spec.Pinch ->
  Spec.pinchClose lm = true /\ Spec.middle lm = false
  /\ Spec.ring lm = false /\ Spec.pinky lm = false.
Proof.
  unfold Spec.classify, Spec.rules, Spec.extendedCount. cbn [find fst snd].
  destruct (Spec.pinchClose lm), (Spec.thumb lm), (Spec.index lm),
    (Spec.middle lm), (Spec.ring lm), (Spec.pinky lm);
    cbn; intros H; try discriminate H; repeat split.
Qed.

(** X3.  With 21 landmarks or more, a hand with the middle finger extended
    is never a Pinch, however close thumb and index tips are: all five
    fingers extended give the dissection gesture, index and middle alone
    (thumb folded) the pathology gesture, and three or four extended
    non-thumb fingers give the dissection gesture or the rotating open
    palm. *)
Theorem extended_fingers_override_pinch (gm : Mode) (lm : list Landmark.t) :
  (21 <= List.length lm)%nat ->
  (Spec.middle lm = true ->
   detectGesture gm lm <> Some {| name := pinchName; gmode := gm |})
  /\ (Spec.thumb lm = true -> Spec.index lm = true -> Spec.middle lm = true ->
      Spec.ring lm = true -> Spec.pinky lm = true ->
      detectGesture gm lm = Some {| name := openHandName; gmode := dissection |})
  /\ (Spec.thumb lm = false -> Spec.index lm = true -> Spec.middle lm = true ->
      Spec.ring lm = false -> Spec.pinky lm = false ->
      detectGesture gm lm = Some {| name := peaceName; gmode := pathology |})
  /\ ((3 <= Spec.extendedCount lm)%nat ->
      detectGesture gm lm = Some {| name := openHandName; gmode := dissection |}
      \/ detectGesture gm lm = Some {| name := openPalmName; gmode := gm |}).
Proof.
  intros Hlen. rewrite (detectGesture_classify_ge gm lm Hlen).
  unfold Spec.classify, Spec.rules, Spec.extendedCount. cbn [find fst snd].
  split; [|split; [|split]].
  - intros ->.
    destruct (Spec.pinchClose lm), (Spec.thumb lm), (Spec.index lm),
      (Spec.ring lm), (Spec.pinky lm); cbn; discriminate.
  - intros -> -> -> -> ->. destruct (Spec.pinchClose lm); reflexivity.
  - intros -> -> -> -> ->. destruct (Spec.pinchClose lm); reflexivity.
  - destruct (Spec.pinchClose lm), (Spec.thumb lm), (Spec.index lm),
      (Spec.middle lm), (Spec.ring lm), (Spec.pinky lm);
      cbn; intros H; try lia; (now left) || (now right).
Qed.

Lemma extended_fingers_override_pinch_witness :
  detectGesture normal Hands.openHand
  = Some {| name := openHandName; gmode := dissection |}.
Proof.
  destruct openHand_fingers as (Ht & Hi & Hm & Hr & Hk).
  destruct (extended_fingers_override_pinch normal Hands.openHand)
    as (_ & Hall & _).
  - cbn. lia.
  - exact (Hall Ht Hi Hm Hr Hk).
Defined.

(** A finger whose tip is within the margin of the wrist is not extended. *)
Lemma near_tip_not_extended (w t k : Landmark.t) :
  Spec.distance w t <= 0.05 -> Spec.extended w t k = false.
Proof.
  intros H. unfold Spec.extended.
  pose proof (distance_nonneg w k).
  destruct (Rlt_dec _ _); [lra | reflexivity].
Qed.

(** X4.  A hand whose five finger tips all lie within 0.05 of the wrist in
    the image (a hand far from the camera) has no finger extended: it is
    classified as the fist, or as a Pinch when thumb and index tips are less
    than 0.06 apart, and as nothing else. *)
Theorem small_hand_is_fist_or_pinch (gm : Mode) (lm : list Landmark.t) :
  (21 <= List.length lm)%nat ->
  (forall i, In i Geometry.tips ->
             Spec.distance (Spec.at_ lm 0) (Spec.at_ lm i) <= 0.05) ->
  detectGesture gm lm
  = Some (if Spec.pinchClose lm
          then {| name := pinchName; gmode := gm |}
          else {| name := fistName; gmode := normal |}).
Proof.
  intros Hlen Hnear. rewrite (detectGesture_classify_ge gm lm Hlen).
  assert (Ht : Spec.thumb lm = false)
    by (apply near_tip_not_extended, Hnear; cbn; tauto).
  assert (Hi : Spec.index lm = false)
    by (apply near_tip_not_extended, Hnear; cbn; tauto).
  assert (Hm : Spec.middle lm = false)
    by (apply near_tip_not_extended, Hnear; cbn; tauto).
  assert (Hr : Spec.ring lm = false)
    by (apply near_tip_not_extended, Hnear; cbn; tauto).
  assert (Hk : Spec.pinky lm = false)
    by (apply near_tip_not_extended, Hnear; cbn; tauto).
  rewrite classify_no_finger.
  - destruct (Spec.pinchClose lm); reflexivity.
  - unfold Spec.extendedCount. now rewrite Hi, Hm, Hr, Hk.
  - exact Ht.
Qed.

Lemma small_hand_is_fist_or_pinch_witness :
  detectGesture dissection MoreHands.speck
  = Some (if Spec.pinchClose MoreHands.speck
          then {| name := pinchName; gmode := dissection |}
          else {| name := fistName; gmode := normal |}).
Proof.
  apply (small_hand_is_fist_or_pinch dissection MoreHands.speck).
  - cbn. lia.
  - intros i Hi. cbn in Hi.
    destruct Hi as [<- | [<- | [<- | [<- | [<- | []]]]]];
      unfold Spec.at_, MoreHands.speck; cbn [repeat nth]; dist_le.
Defined.

End Invariance.

(** ** Guards, malformed frames and what is emitted *)

Section Guards.

Import HandGestureController.

(** X5.  When the canvas or its 2D context is missing, or the callback was
    created with [enabled] false, [onResults] changes nothing and emits
    nothing, frame after frame, whatever the frames hold. *)
Theorem blocked_callback_does_nothing
        (env : Closure) (frames : list Results) (s : State) :
  canvasRef_current env = false \/ canvasCtx env = false \/ enabled env = false ->
  run env frames s = (s, []).
Proof.
  intros Hblocked.
  assert (Hstep : forall r s0, onResults env r s0 = (s0, None)).
  { intros r s0. unfold onResults.
    destruct Hblocked as [-> | [-> | ->]].
    - reflexivity.
    - destruct (negb (canvasRef_current env) || negb (enabled env)); reflexivity.
    - now rewrite orb_true_r. }
  induction frames as [|r rest IH]; [reflexivity|].
  cbn [run]. now rewrite Hstep, IH.
Qed.

Lemma blocked_callback_does_nothing_witness :
  let env := {| canvasRef_current := true; canvasCtx := true;
                enabled := false; gestureMode := normal |} in
  run env [handFrame Hands.openHand; noHandFrame; handFrame Hands.pinch]
      initialState
  = (initialState, []).
Proof.
  intros env.
  apply (blocked_callback_does_nothing env). right. right. reflexivity.
Defined.

(** X6.  Past the guards, [onResults] emits a signal exactly when the frame
    lists a first hand of 21 landmarks or more; a first hand with fewer
    landmarks makes the classifier throw, and the caught error leaves the
    whole state as it was, the last palm position and the label included. *)
Theorem signal_iff_first_hand_complete
        (env : Closure) (r : Results) (s : State) :
  Frame.ready env ->
  (snd (onResults env r s) <> None
   <-> exists lm others,
         multiHandLandmarks r = Some (lm :: others)
         /\ (21 <= List.length lm)%nat)
  /\ (forall lm others,
        multiHandLandmarks r = Some (lm :: others) ->
        (List.length lm < 21)%nat ->
        onResults env r s = (s, None)).
Proof.
  intros Hready. destruct r as [hands]. cbn [multiHandLandmarks]. split.
  - destruct hands as [[|lm others]|].
    + rewrite onResults_noHand by (exact Hready || (right; reflexivity)).
      split; [intros H; now elim H | intros (lm & others & H & _); discriminate H].
    + destruct (Nat.lt_ge_cases (List.length lm) 21) as [Hlt | Hge].
      * rewrite (onResults_hand_short env lm others s Hlt). split.
        -- intros H. now elim H.
        -- intros (lm' & others' & H & Hlen). injection H as <- <-. lia.
      * rewrite (onResults_hand_ge env lm others s Hready Hge). split.
        -- intros _. now exists lm, others.
        -- intros _. discriminate.
    + rewrite onResults_noHand by (exact Hready || (left; reflexivity)).
      split; [intros H; now elim H | intros (lm & others & H & _); discriminate H].
  - intros lm others -> Hlt. now apply onResults_hand_short.
Qed.

Lemma signal_iff_first_hand_complete_witness :
  let s := setLastHandPos (Some (XY.mk 0.5 0.5)) initialState in
  onResults (register s)
            {| multiHandLandmarks := Some [MoreHands.truncated; Hands.openHand] |} s
  = (s, None).
Proof.
  intros s.
  apply (proj2 (signal_iff_first_hand_complete
                  (register s)
                  {| multiHandLandmarks := Some [MoreHands.truncated; Hands.openHand] |}
                  s (ready_register s))
               MoreHands.truncated [Hands.openHand]).
  - reflexivity.
  - cbn. lia.
Defined.

End Guards.

(** ** Rotation over a run of frames *)

Section RotationRuns.

Import HandGestureController.

Lemma lastPalm_cons (p : XY.t) (lm : list Landmark.t)
      (lms : list (list Landmark.t)) :
  Runs.lastPalm p (lm :: lms)
  = Runs.lastPalm (XY.mk (Landmark.x (Spec.at_ lm 9)) (Landmark.y (Spec.at_ lm 9)))
                  lms.
Proof.
  unfold Runs.lastPalm. cbn [rev].
  destruct (rev lms) as [|l t] eqn:Hrev; reflexivity.
Qed.

Lemma rotate_run (env : Closure) (lms : list (list Landmark.t)) :
  Frame.ready env -> Forall Runs.rotateHand lms ->
  forall (s : State) (p0 : XY.t),
    lastHandPosRef s = Some p0 ->
    let s' := fst (run env (map handFrame lms) s) in
    lastHandPosRef s' = Some (Runs.lastPalm p0 lms)
    /\ XY.y (rotationRef s')
       = XY.y (rotationRef s) + (XY.x (Runs.lastPalm p0 lms) - XY.x p0) * 10
    /\ XY.x (rotationRef s')
       = XY.x (rotationRef s) - (XY.y (Runs.lastPalm p0 lms) - XY.y p0) * 10.
Proof.
  intros Hready Hall. induction Hall as [|lm lms (Hlen & Hrot) Hall IH];
    intros s p0 Hlast.
  - cbn. repeat split; [exact Hlast | lra | lra].
  - cbn [map]. cbv zeta. rewrite (proj1 (run_cons _ _ _ _)).
    unfold handFrame at 2 4 6.
    rewrite (onResults_hand_ge env lm [] s Hready Hlen). cbn [fst].
    set (s1 := Frame.afterHand env lm s).
    set (p1 := XY.mk (Landmark.x (Spec.at_ lm 9)) (Landmark.y (Spec.at_ lm 9))).
    assert (H1 : lastHandPosRef s1 = Some p1) by reflexivity.
    destruct (IH s1 p1 H1) as (Hl & Hy & Hx).
    rewrite lastPalm_cons. fold p1.
    split; [exact Hl|].
    assert (Hr : rotationRef s1 = Frame.rotated (rotationRef s) p0 (Spec.at_ lm 9)).
    { unfold s1, Frame.afterHand. cbn [rotationRef]. now rewrite Hlast, Hrot. }
    rewrite Hy, Hx, Hr. unfold Frame.rotated, p1. cbn [XY.x XY.y]. split; lra.
Qed.

(** X7.  Over consecutive hand frames that are all classified as a rotate
    gesture, the accumulated rotation depends only on where the palm centre
    ends: it is the rotation before, plus ten times the palm's net
    horizontal movement on y, minus ten times its net vertical movement on
    x, counted from the last palm position stored before the run. *)
Theorem rotation_is_net_palm_movement
        (env : Closure) (s : State) (p0 : XY.t) (lms : list (list Landmark.t)) :
  Frame.ready env ->
  Forall Runs.rotateHand lms ->
  lastHandPosRef s = Some p0 ->
  let s' := fst (run env (map handFrame lms) s) in
  XY.y (rotationRef s')
  = XY.y (rotationRef s) + (XY.x (Runs.lastPalm p0 lms) - XY.x p0) * 10
  /\ XY.x (rotationRef s')
     = XY.x (rotationRef s) - (XY.y (Runs.lastPalm p0 lms) - XY.y p0) * 10.
Proof.
  intros Hready Hall Hlast.
  exact (proj2 (rotate_run env lms Hready Hall s p0 Hlast)).
Qed.

Lemma rotateHand_pointing (px py : R) : Runs.rotateHand (Hands.pointing px py).
Proof.
  split; [cbn; lia | now rewrite classify_pointing].
Qed.

Lemma rotation_is_net_palm_movement_witness :
  let s := setLastHandPos (Some (XY.mk 0.5 0.5)) initialState in
  let lms := [Hands.pointing 0.6 0.4; Hands.pointing 0.2 0.8;
              Hands.pointing 0.7 0.3] in
  let s' := fst (run (register s) (map handFrame lms) s) in
  XY.y (rotationRef s') = 0 + (0.7 - 0.5) * 10
  /\ XY.x (rotationRef s') = 0 - (0.3 - 0.5) * 10.
Proof.
  intros s lms s'.
  apply (rotation_is_net_palm_movement (register s) s (XY.mk 0.5 0.5) lms).
  - apply ready_register.
  - repeat constructor; apply rotateHand_pointing.
  - reflexivity.
Defined.

End RotationRuns.

(** ** The zoom never drops below 1 *)

Section ZoomFloor.

Import HandGestureController.

Lemma pinchZoom_decreasing (d1 d2 : R) :
  0 <= d1 -> d1 <= d2 -> pinchZoom d2 <= pinchZoom d1.
Proof.
  intros H1 H12.
  destruct (Req_dec_T d1 0) as [-> | Hd1].
  - rewrite pinchZoom_zero. apply (pinchZoom_range d2). lra.
  - rewrite !pinchZoom_clamp by lra. unfold Spec.clamp.
    assert (H : 1 / (d2 * 15) <= 1 / (d1 * 15)).
    { unfold Rdiv. rewrite !Rmult_1_l. apply Rinv_le_contravar; lra. }
    unfold Rmax, Rmin. repeat destruct (Rle_dec _ _); lra.
Qed.

(** X8.  [pinchZoom] never grows with the distance: closer finger tips give
    a zoom at least as large. *)
Theorem pinchZoom_antitone (d1 d2 : R) :
  0 <= d1 -> d1 <= d2 -> pinchZoom d2 <= pinchZoom d1.
Proof.
  exact (pinchZoom_decreasing d1 d2).
Qed.

Lemma pinchZoom_antitone_witness : pinchZoom 0.05 <= pinchZoom 0.02.
Proof.
  apply (pinchZoom_antitone 0.02 0.05); lra.
Defined.

(** Below the pinch threshold the zoom is at least [1 / 0.9]. *)
Lemma pinchZoom_close (d : R) : 0 <= d -> d < 0.06 -> 10 / 9 <= pinchZoom d.
Proof.
  intros H0 Hd.
  apply Rle_trans with (pinchZoom 0.06); [|apply pinchZoom_decreasing; lra].
  rewrite pinchZoom_clamp by lra. unfold Spec.clamp.
  replace (1 / (0.06 * 15)) with (10 / 9) by lra.
  rewrite Rmin_right by lra. rewrite Rmax_right by lra. lra.
Qed.

Lemma decayZoom_zoomedIn (z : R) : Runs.zoomedIn z -> Runs.zoomedIn (decayZoom z).
Proof. unfold Runs.zoomedIn, decayZoom. lra. Qed.

Lemma afterHand_zoomedIn (env : Closure) (lm : list Landmark.t) (s : State) :
  Runs.zoomedIn (zoomRef s) -> Runs.zoomedIn (zoomRef (Frame.afterHand env lm s)).
Proof.
  intros Hs. unfold Frame.afterHand. cbn [zoomRef].
  destruct (Spec.isPinch (Spec.classify lm)) eqn:Hp;
    [|now apply decayZoom_zoomedIn].
  assert (Hcl : Spec.classify lm = Spec.Pinch)
    by (destruct (Spec.classify lm); (reflexivity || discriminate Hp)).
  destruct (classify_Pinch_inv lm Hcl) as (Hclose & _).
  unfold Spec.pinchClose in Hclose.
  destruct (Rlt_dec (Spec.pinchDistance lm) 0.06) as [Hd|]; [|discriminate Hclose].
  assert (H0 : 0 <= Spec.pinchDistance lm) by apply distance_nonneg.
  pose proof (pinchZoom_close _ H0 Hd) as Hlo.
  pose proof (pinchZoom_range _ H0) as Hhi.
  unfold Frame.zoomInRange in Hhi. unfold Runs.zoomedIn. lra.
Qed.

Lemma onResults_zoomedIn (env : Closure) (r : Results) (s : State) :
  Runs.zoomedIn (zoomRef s) ->
  Runs.zoomedIn (zoomRef (fst (onResults env r s)))
  /\ forall c, snd (onResults env r s) = Some c -> Runs.zoomedIn (zoom c).
Proof.
  intros Hs.
  destruct (negb (canvasRef_current env) || negb (enabled env)) eqn:Hg.
  { unfold onResults. rewrite Hg. split; [exact Hs | discriminate]. }
  destruct (negb (canvasCtx env)) eqn:Hx.
  { unfold onResults. rewrite Hg, Hx. split; [exact Hs | discriminate]. }
  assert (Hready : Frame.ready env).
  { apply orb_false_elim in Hg. destruct Hg as (Hg1 & Hg2).
    apply negb_false_iff in Hg1, Hg2, Hx. repeat split; assumption. }
  destruct r as [[[|lm others]|]].
  - rewrite onResults_noHand by (exact Hready || (right; reflexivity)).
    split; [exact Hs | discriminate].
  - destruct (Nat.lt_ge_cases (List.length lm) 21) as [Hlt | Hge].
    + rewrite (onResults_hand_short env lm others s Hlt).
      split; [exact Hs | discriminate].
    + rewrite (onResults_hand_ge env lm others s Hready Hge). cbn [fst snd].
      pose proof (afterHand_zoomedIn env lm s Hs) as Hz.
      split; [exact Hz | intros c Hc; injection Hc as <-; exact Hz].
  - rewrite onResults_noHand by (exact Hready || (left; reflexivity)).
    split; [exact Hs | discriminate].
Qed.

Lemma run_zoomedIn (env : Closure) (frames : list Results) :
  forall s,
    Runs.zoomedIn (zoomRef s) ->
    Runs.zoomedIn (zoomRef (fst (run env frames s)))
    /\ Forall (fun c => Runs.zoomedIn (zoom c)) (snd (run env frames s)).
Proof.
  induction frames as [|r rest IH]; intros s Hs.
  - cbn. split; [exact Hs | constructor].
  - destruct (run_cons env r rest s) as (-> & ->).
    destruct (onResults_zoomedIn env r s Hs) as (H1 & Hout).
    destruct (IH _ H1) as (H2 & Houts). split; [exact H2|].
    destruct (snd (onResults env r s)) as [c|]; [|exact Houts].
    constructor; [now apply Hout | exact Houts].
Qed.

(** X9.  A frame is classified Pinch only below the distance 0.06, where
    the zoom formula gives at least 1/0.9; with the decay towards 1.0 this
    keeps the zoom, and the zoom of every emitted signal, between 1 and 2.5
    over every sequence of calls from the initial state: the lower clamp 0.3
    is never reached and the model is never shown smaller than its base
    scale. *)
Theorem zoom_never_below_one (env : Closure) (frames : list Results) :
  Runs.zoomedIn (zoomRef (fst (run env frames initialState)))
  /\ Forall (fun c => Runs.zoomedIn (zoom c)) (snd (run env frames initialState))
  /\ (forall lm s,
        Frame.ready env -> (21 <= List.length lm)%nat ->
        Spec.classify lm = Spec.Pinch ->
        10 / 9 <= zoomRef (fst (onResults env (handFrame lm) s))).
Proof.
  assert (H1 : Runs.zoomedIn (zoomRef initialState))
    by (cbn; unfold Runs.zoomedIn; lra).
  destruct (run_zoomedIn env frames initialState H1) as (Hs & Hout).
  split; [exact Hs|]. split; [exact Hout|].
  intros lm s Hready Hlen Hcl. unfold handFrame.
  rewrite (onResults_hand_ge env lm [] s Hready Hlen). cbn [fst].
  unfold Frame.afterHand. cbn [zoomRef]. rewrite Hcl. cbn [Spec.isPinch].
  destruct (classify_Pinch_inv lm Hcl) as (Hclose & _).
  unfold Spec.pinchClose in Hclose.
  destruct (Rlt_dec (Spec.pinchDistance lm) 0.06) as [Hd|]; [|discriminate Hclose].
  apply pinchZoom_close; [apply distance_nonneg | exact Hd].
Qed.

Lemma zoom_never_below_one_witness :
  10 / 9 <= zoomRef (fst (onResults (register initialState)
                                    (handFrame Hands.pinchedFist) initialState)).
Proof.
  apply (proj2 (proj2 (zoom_never_below_one (register initialState) []))).
  - apply ready_register.
  - cbn. lia.
  - exact classify_pinchedFist.
Defined.

End ZoomFloor.

(** ** The displayed mode and the last signal *)

Section DisplayedMode.

Import HandGestureController.

(** What one call can do to the hook state [gestureMode]: leave it, or set
    it to a mode other than the one the callback reads. *)
Lemma onResults_mode (env : Closure) (r : Results) (s : State) :
  stateGestureMode (fst (onResults env r s)) = stateGestureMode s
  \/ stateGestureMode (fst (onResults env r s)) <> gestureMode env.
Proof.
  unfold onResults.
  destruct (negb (canvasRef_current env) || negb (enabled env)); [now left|].
  destruct (negb (canvasCtx env)); [now left|].
  destruct (multiHandLandmarks r) as [[|lm others]|]; try now left.
  unfold handDetected.
  destruct (detectGesture (gestureMode env) lm) as [g|]; [|now left].
  cbn [Js.bind].
  destruct (nth_error lm 9) as [palm|]; [|now left].
  cbn [Js.bind].
  assert (Hprev :
    forall s0,
      stateGestureMode
        (setLastHandPos
           (Some (XY.mk (Landmark.x palm) (Landmark.y palm)))
           match lastHandPosRef s0 with
           | Some last =>
               if Js.includes (name g) "Rotate" || Js.includes (name g) "Pointing"
               then
                 setRotation
                   (XY.mk (XY.x (XY.mk (XY.x (rotationRef s0))
                                       (XY.y (rotationRef s0)
                                        + (Landmark.x palm - XY.x last) * 10))
                           - (Landmark.y palm - XY.y last) * 10)
                          (XY.y (XY.mk (XY.x (rotationRef s0))
                                       (XY.y (rotationRef s0)
                                        + (Landmark.x palm - XY.x last) * 10))))
                   s0
               else s0
           | None => s0
           end)
      = stateGestureMode s0).
  { intros s0. destruct (lastHandPosRef s0); [|reflexivity].
    destruct (_ || _); reflexivity. }
  destruct (Js.includes (name g) "Pinch").
  - destruct (nth_error lm 4); [|now left].
    destruct (nth_error lm 8); [|now left].
    cbn [Js.bind fst setZoom stateGestureMode]. rewrite Hprev.
    destruct (Mode_eqb (gmode g) (gestureMode env)) eqn:He; cbn [negb].
    + now left.
    + right. cbn. intros Heq. rewrite Heq in He.
      now destruct (gestureMode env).
  - cbn [Js.bind fst setZoom stateGestureMode]. rewrite Hprev.
    destruct (Mode_eqb (gmode g) (gestureMode env)) eqn:He; cbn [negb].
    + now left.
    + right. cbn. intros Heq. rewrite Heq in He.
      now destruct (gestureMode env).
Qed.

Lemma run_mode (env : Closure) (frames : list Results) :
  forall s,
    stateGestureMode s <> gestureMode env ->
    stateGestureMode (fst (run env frames s)) <> gestureMode env.
Proof.
  induction frames as [|r rest IH]; intros s Hs; [exact Hs|].
  rewrite (proj1 (run_cons env r rest s)). apply IH.
  destruct (onResults_mode env r s) as [-> | H]; assumption.
Qed.

(** X10.  The mode shown in the overlay is the hook state, and the callback
    of one enabling compares each gesture's mode with the [gestureMode] it
    was registered with: it never calls [setGestureMode] with that mode.
    Once a frame has moved the displayed mode away from the mode at
    enabling, no later frame of the same enabling brings it back. *)
Theorem displayed_mode_never_returns
        (s : State) (before after : list Results) :
  let env := register s in
  let s1 := fst (run env before s) in
  stateGestureMode s1 <> stateGestureMode s ->
  stateGestureMode (fst (run env after s1)) <> stateGestureMode s.
Proof.
  intros env s1 H1. exact (run_mode env after s1 H1).
Qed.

Lemma displayed_mode_never_returns_witness :
  let env := register initialState in
  let s1 := fst (run env [handFrame Hands.openHand] initialState) in
  stateGestureMode s1 = dissection
  /\ Spec.classify Hands.fist = Spec.FistNormal
  /\ stateGestureMode (fst (run env [handFrame Hands.fist; handFrame Hands.fist] s1))
     <> normal.
Proof.
  intros env s1.
  assert (H1 : stateGestureMode s1 = dissection).
  { unfold s1. rewrite (proj1 (run_cons _ _ _ _)). cbn [run fst].
    rewrite (onResults_hand env Hands.openHand initialState)
      by (try apply ready_register; reflexivity).
    cbn [fst]. unfold Frame.afterHand. cbn [stateGestureMode].
    rewrite classify_openHand. reflexivity. }
  split; [exact H1|]. split; [exact classify_fist|].
  apply (displayed_mode_never_returns
           initialState [handFrame Hands.openHand]
           [handFrame Hands.fist; handFrame Hands.fist]).
  fold env. fold s1. rewrite H1. discriminate.
Defined.

(** What one call does to rotation and zoom, and what it emits. *)
Lemma onResults_signal (env : Closure) (r : Results) (s : State) :
  match snd (onResults env r s) with
  | Some c =>
      rotationX c = XY.x (rotationRef (fst (onResults env r s)))
      /\ rotationY c = XY.y (rotationRef (fst (onResults env r s)))
      /\ zoom c = zoomRef (fst (onResults env r s))
  | None =>
      rotationRef (fst (onResults env r s)) = rotationRef s
      /\ zoomRef (fst (onResults env r s)) = zoomRef s
  end.
Proof.
  unfold onResults.
  destruct (negb (canvasRef_current env) || negb (enabled env)); [now split|].
  destruct (negb (canvasCtx env)); [now split|].
  destruct (multiHandLandmarks r) as [[|lm others]|]; try now split.
  unfold handDetected.
  destruct (detectGesture (gestureMode env) lm) as [g|]; [|now split].
  cbn [Js.bind].
  destruct (nth_error lm 9) as [palm|]; [|now split].
  cbn [Js.bind].
  destruct (Js.includes (name g) "Pinch").
  - destruct (nth_error lm 4); [|now split].
    destruct (nth_error lm 8); [|now split].
    cbn. repeat split.
  - cbn. repeat split.
Qed.

Lemma run_silent (env : Closure) (frames : list Results) :
  forall s,
    snd (run env frames s) = [] ->
    rotationRef (fst (run env frames s)) = rotationRef s
    /\ zoomRef (fst (run env frames s)) = zoomRef s.
Proof.
  induction frames as [|r rest IH]; intros s Hnil; [now split|].
  destruct (run_cons env r rest s) as (Hf & Hs). rewrite Hf. rewrite Hs in Hnil.
  pose proof (onResults_signal env r s) as Hsig.
  destruct (snd (onResults env r s)) as [c|]; [discriminate Hnil|].
  destruct (IH _ Hnil) as (-> & ->). exact Hsig.
Qed.

Lemma run_last_signal (env : Closure) (frames : list Results) :
  forall s older c,
    snd (run env frames s) = (older ++ [c])%list ->
    rotationX c = XY.x (rotationRef (fst (run env frames s)))
    /\ rotationY c = XY.y (rotationRef (fst (run env frames s)))
    /\ zoom c = zoomRef (fst (run env frames s)).
Proof.
  induction frames as [|r rest IH]; intros s older c Hout.
  - cbn in Hout. now destruct older.
  - destruct (run_cons env r rest s) as (Hf & Hs). rewrite Hf. rewrite Hs in Hout.
    pose proof (onResults_signal env r s) as Hsig.
    destruct (snd (run env rest (fst (onResults env r s)))) as [|c1 outs] eqn:Hrest.
    + destruct (run_silent env rest _ Hrest) as (-> & ->).
      destruct (snd (onResults env r s)) as [c0|].
      * destruct older as [|o older]; [|now destruct older].
        injection Hout as <-. exact Hsig.
      * now destruct older.
    + assert (Hlast : exists older', c1 :: outs = (older' ++ [c])%list).
      { destruct (snd (onResults env r s)) as [c0|].
        - destruct older as [|o older]; [discriminate Hout|].
          injection Hout as _ Hout. now exists older.
        - now exists older. }
      destruct Hlast as (older' & Hlast).
      apply (IH _ older' c). now rewrite Hrest.
Qed.

(** X11.  After every sequence of calls, the signal emitted last, if there
    is one, carries the rotation and the zoom the refs hold now, and if
    there is none the rotation and the zoom have not moved: calls that emit
    nothing (no hand, a throwing hand, a failing guard) change neither. *)
Theorem last_signal_is_current
        (env : Closure) (frames : list Results) (s : State) :
  (forall older c,
     snd (run env frames s) = (older ++ [c])%list ->
     rotationX c = XY.x (rotationRef (fst (run env frames s)))
     /\ rotationY c = XY.y (rotationRef (fst (run env frames s)))
     /\ zoom c = zoomRef (fst (run env frames s)))
  /\ (snd (run env frames s) = [] ->
      rotationRef (fst (run env frames s)) = rotationRef s
      /\ zoomRef (fst (run env frames s)) = zoomRef s).
Proof.
  split.
  - intros older c. apply run_last_signal.
  - apply run_silent.
Qed.

Lemma last_signal_is_current_witness :
  let env := register initialState in
  let frames := [handFrame Hands.pinch; noHandFrame; handFrame MoreHands.truncated] in
  exists c,
    snd (run env frames initialState) = [c]
    /\ zoom c = zoomRef (fst (run env frames initialState)).
Proof.
  intros env frames.
  assert (Hout : exists c, snd (run env frames initialState) = ([] ++ [c])%list).
  { unfold frames.
    destruct (run_cons env (handFrame Hands.pinch)
                       [noHandFrame; handFrame MoreHands.truncated] initialState)
      as (_ & ->).
    rewrite (onResults_hand env Hands.pinch initialState)
      by (try apply ready_register; reflexivity).
    cbn [fst snd]. eexists. cbn [app]. reflexivity. }
  destruct Hout as (c & Hc). exists c. split; [exact Hc|].
  exact (proj2 (proj2 (proj1 (last_signal_is_current env frames initialState)
                             [] c Hc))).
Defined.

End DisplayedMode.

(** * Further properties of the viewer *)

Section IdleAndDrag.

Import Viewer.

Lemma run_cons_event (organ : option string) (ev : Event) (evs : list Event)
      (s : State) :
  run organ (ev :: evs) s = run organ evs (step organ ev s).
Proof. reflexivity. Qed.

(** Idle ticks: flag off, no drag. *)
Lemma idle_ticks (organ : option string) (n : nat) :
  forall (s : State) (m : Mesh),
    gestureEnabledRef s = false ->
    isDragging s = false ->
    meshRef s = Some m ->
    let s' := run organ (repeat Tick n) s in
    gestureEnabledRef s' = false
    /\ isDragging s' = false
    /\ gestureControlsRef s' = gestureControlsRef s
    /\ exists m',
         meshRef s' = Some m'
         /\ Vec3.x (rotation m') = Vec3.x (rotation m)
         /\ Vec3.y (rotation m') = Vec3.y (rotation m) + INR n * 0.005
         /\ Vec3.z (rotation m') = Vec3.z (rotation m)
         /\ scale m' = scale m.
Proof.
  induction n as [|n IH]; intros s m He Hd Hm.
  - cbn. repeat split; try assumption. exists m.
    repeat split; try assumption; lra.
  - cbn [repeat]. cbv zeta. rewrite run_cons_event.
    assert (Hstep : step organ Tick s
                    = setMesh {| rotation := Vec3.mk (Vec3.x (rotation m))
                                                     (Vec3.y (rotation m) + 0.005)
                                                     (Vec3.z (rotation m));
                                 scale := scale m |} s).
    { cbn [step]. unfold animate. rewrite He, Hd, Hm. reflexivity. }
    rewrite Hstep.
    destruct (IH (setMesh {| rotation := Vec3.mk (Vec3.x (rotation m))
                                                 (Vec3.y (rotation m) + 0.005)
                                                 (Vec3.z (rotation m));
                             scale := scale m |} s) _ He Hd eq_refl)
      as (He' & Hd' & Hc' & m' & Hm' & Hx & Hy & Hz & Hs).
    repeat split; try assumption. exists m'.
    cbn [rotation scale Vec3.x Vec3.y Vec3.z] in Hx, Hy, Hz, Hs.
    repeat split; try assumption. rewrite Hy, S_INR. lra.
Qed.

(** X12.  With gestures off and no drag in progress, [n] render ticks turn
    the loaded model by [n * 0.005] about y and change neither its other
    angles nor its scale. *)
Theorem idle_ticks_auto_rotate
        (organ : option string) (n : nat) (s : State) (m : Mesh) :
  gestureEnabledRef s = false ->
  isDragging s = false ->
  meshRef s = Some m ->
  exists m',
    meshRef (run organ (repeat Tick n) s) = Some m'
    /\ Vec3.x (rotation m') = Vec3.x (rotation m)
    /\ Vec3.y (rotation m') = Vec3.y (rotation m) + INR n * 0.005
    /\ Vec3.z (rotation m') = Vec3.z (rotation m)
    /\ scale m' = scale m.
Proof.
  intros He Hd Hm.
  exact (proj2 (proj2 (proj2 (idle_ticks organ n s m He Hd Hm)))).
Qed.

Lemma idle_ticks_auto_rotate_witness :
  let m := {| rotation := Vec3.mk 0.1 0.2 0.3; scale := modelScale (Some "brain") |} in
  let s := {| meshRef := Some m; isDragging := false;
              previousMousePosition := XY.mk 0 0;
              gestureEnabledRef := false; gestureControlsRef := None |} in
  exists m',
    meshRef (run (Some "brain") (repeat Tick 200) s) = Some m'
    /\ Vec3.y (rotation m') = 0.2 + INR 200 * 0.005
    /\ scale m' = Vec3.mk 0.1 0.1 0.1.
Proof.
  intros m s.
  destruct (idle_ticks_auto_rotate (Some "brain") 200 s m eq_refl eq_refl eq_refl)
    as (m' & Hm' & _ & Hy & _ & Hs).
  exists m'. repeat split; assumption.
Defined.




End IdleAndDrag.

Section GestureFlag.

Import Viewer.

(** X14.  With the gesture flag set and no signal received yet, nothing
    moves the model: ticks do not auto-rotate it and the mouse does not drag
    it, over every sequence of ticks and mouse events. *)
Theorem model_frozen_until_first_signal
        (organ : option string) (evs : list Event) (s : State) :
  gestureEnabledRef s = true ->
  gestureControlsRef s = None ->
  meshRef (run organ evs s) = meshRef s.
Proof.
  revert s. induction evs as [|ev evs IH]; intros s He Hc; [reflexivity|].
  rewrite run_cons_event.
  assert (Hstep : gestureEnabledRef (step organ ev s) = true
                  /\ gestureControlsRef (step organ ev s) = None
                  /\ meshRef (step organ ev s) = meshRef s).
  { destruct ev as [|e|e|]; cbn [step].
    - unfold animate. rewrite He, Hc. cbn [negb andb].
      destruct (meshRef s) eqn:Hm; repeat split; assumption.
    - unfold onMouseDown. rewrite He. repeat split; assumption.
    - unfold onMouseMove. rewrite He. cbn [orb].
      destruct (meshRef s) eqn:Hm; repeat split; assumption.
    - cbn. repeat split; assumption. }
  destruct Hstep as (He1 & Hc1 & Hm1).
  rewrite (IH _ He1 Hc1). exact Hm1.
Qed.

Lemma model_frozen_until_first_signal_witness :
  let m := {| rotation := Vec3.mk 0.1 0.2 0.3; scale := modelScale (Some "heart") |} in
  let s := {| meshRef := Some m; isDragging := true;
              previousMousePosition := XY.mk 5 5;
              gestureEnabledRef := true; gestureControlsRef := None |} in
  meshRef (run (Some "heart")
               [Tick; MouseMove {| clientX := 50; clientY := 60 |}; Tick; MouseUp; Tick]
               s)
  = Some m.
Proof.
  intros m s.
  exact (model_frozen_until_first_signal
           (Some "heart")
           [Tick; MouseMove {| clientX := 50; clientY := 60 |}; Tick; MouseUp; Tick]
           s eq_refl eq_refl).
Defined.

(** With the flag off, a step reads nothing of the stored signal and keeps
    the scale. *)
Lemma step_flag_off (organ : option string) (ev : Event) (s : State)
      (c : option GestureControls) :
  gestureEnabledRef s = false ->
  step organ ev (ViewerProps.setGestureControls c s)
  = ViewerProps.setGestureControls c (step organ ev s)
  /\ gestureEnabledRef (step organ ev s) = false
  /\ match meshRef s, meshRef (step organ ev s) with
     | Some m, Some m' => scale m' = scale m
     | None, None => True
     | _, _ => False
     end.
Proof.
  intros He. destruct s as [mesh drag prev en ctl]. cbn in He. subst en.
  destruct ev as [|e|e|]; cbn [step].
  - unfold animate, ViewerProps.setGestureControls. cbn.
    destruct mesh as [m|]; destruct drag; destruct c; destruct ctl; cbn;
      repeat split.
  - cbn. repeat split. destruct mesh; reflexivity || exact I.
  - unfold onMouseMove, ViewerProps.setGestureControls. cbn.
    destruct mesh as [m|]; destruct drag; cbn; repeat split.
  - cbn. repeat split. destruct mesh; reflexivity || exact I.
Qed.

Lemma run_flag_off (organ : option string) (evs : list Event) :
  forall (s : State) (c : option GestureControls),
    gestureEnabledRef s = false ->
    run organ evs (ViewerProps.setGestureControls c s)
    = ViewerProps.setGestureControls c (run organ evs s)
    /\ match meshRef s, meshRef (run organ evs s) with
       | Some m, Some m' => scale m' = scale m
       | None, None => True
       | _, _ => False
       end.
Proof.
  induction evs as [|ev evs IH]; intros s c He.
  - cbn. split; [reflexivity|]. destruct (meshRef s); reflexivity || exact I.
  - rewrite !run_cons_event.
    destruct (step_flag_off organ ev s c He) as (-> & He1 & Hs1).
    destruct (IH (step organ ev s) c He1) as (-> & Hs2).
    split; [reflexivity|].
    destruct (meshRef s), (meshRef (step organ ev s)),
      (meshRef (run organ evs (step organ ev s))); try contradiction;
      congruence || exact I.
Qed.

(** X15.  With the gesture flag off the stored signal is dead: whatever
    signal the ref holds, every sequence of ticks and mouse events leaves
    the same model, and no event changes the model's scale or loads or
    unloads it. *)
Theorem signal_ignored_while_flag_off
        (organ : option string) (evs : list Event) (s : State)
        (c : option GestureControls) :
  gestureEnabledRef s = false ->
  meshRef (run organ evs (ViewerProps.setGestureControls c s))
  = meshRef (run organ evs s)
  /\ match meshRef s, meshRef (run organ evs s) with
     | Some m, Some m' => scale m' = scale m
     | None, None => True
     | _, _ => False
     end.
Proof.
  intros He. destruct (run_flag_off organ evs s c He) as (-> & Hs).
  split; [reflexivity | exact Hs].
Qed.

Lemma signal_ignored_while_flag_off_witness :
  let m := {| rotation := Vec3.mk 0 0 0; scale := Vec3.mk 1500 1500 1500 |} in
  let s := {| meshRef := Some m; isDragging := false;
              previousMousePosition := XY.mk 0 0;
              gestureEnabledRef := false; gestureControlsRef := None |} in
  let c := {| rotationX := 1; rotationY := 2; zoom := 0.5; mode := pathology |} in
  let evs := [Tick; MouseDown {| clientX := 1; clientY := 1 |};
              MouseMove {| clientX := 9; clientY := 4 |}; Tick] in
  meshRef (run (Some "heart") evs (ViewerProps.setGestureControls (Some c) s))
  = meshRef (run (Some "heart") evs s).
Proof.
  intros m s c evs.
  exact (proj1 (signal_ignored_while_flag_off (Some "heart") evs s (Some c) eq_refl)).
Defined.

(** X16.  Switching gestures off hands the pose over as it is: after a
    gesture tick with signal [c], clearing the flag and letting [n] idle
    ticks pass leaves the model at the signal's rotation, turned by
    [n * 0.005] about y, and still at the base scale times the signal's
    zoom: the zoom of the last signal is not undone. *)
Theorem pose_kept_when_gestures_switched_off
        (organ : option string) (n : nat) (s : State)
        (c : GestureControls) (m : Mesh) :
  gestureEnabledRef s = true ->
  gestureControlsRef s = Some c ->
  meshRef s = Some m ->
  isDragging s = false ->
  let s1 := ViewerProps.setGestureEnabled false (animate organ s) in
  exists m',
    meshRef (run organ (repeat Tick n) s1) = Some m'
    /\ Vec3.x (rotation m') = rotationX c
    /\ Vec3.y (rotation m') = rotationY c + INR n * 0.005
    /\ Vec3.z (rotation m') = Vec3.z (rotation m)
    /\ scale m' = Frame.scaled (modelScale organ) (zoom c).
Proof.
  intros He Hc Hm Hd s1.
  assert (Hs1 : meshRef s1
                = Some {| rotation := Vec3.mk (rotationX c) (rotationY c)
                                              (Vec3.z (rotation m));
                          scale := Frame.scaled (modelScale organ) (zoom c) |}).
  { unfold s1. now rewrite (animate_gesture organ s c m He Hc Hm). }
  assert (Hd1 : isDragging s1 = false).
  { unfold s1. now rewrite (animate_gesture organ s c m He Hc Hm). }
  destruct (idle_ticks organ n s1 _ eq_refl Hd1 Hs1)
    as (_ & _ & _ & m' & Hm' & Hx & Hy & Hz & Hsc).
  exists m'. repeat split; assumption.
Qed.

Lemma pose_kept_when_gestures_switched_off_witness :
  let c := {| rotationX := 0.2; rotationY := -0.4; zoom := 2.5; mode := normal |} in
  let m := {| rotation := Vec3.mk 0 0 0; scale := modelScale (Some "brain") |} in
  let s := {| meshRef := Some m; isDragging := false;
              previousMousePosition := XY.mk 0 0;
              gestureEnabledRef := true; gestureControlsRef := Some c |} in
  let s1 := ViewerProps.setGestureEnabled false (animate (Some "brain") s) in
  exists m',
    meshRef (run (Some "brain") (repeat Tick 10) s1) = Some m'
    /\ Vec3.y (rotation m') = -0.4 + INR 10 * 0.005
    /\ scale m' = Frame.scaled (Vec3.mk 0.1 0.1 0.1) 2.5.
Proof.
  intros c m s s1.
  destruct (pose_kept_when_gestures_switched_off
              (Some "brain") 10 s c m eq_refl eq_refl eq_refl eq_refl)
    as (m' & Hm' & _ & Hy & _ & Hs).
  exists m'. repeat split; assumption.
Defined.

End GestureFlag.

(** * The camera lifecycle *)

Section CameraLifecycle.

Import Lifecycle.

Lemma In_without (k j : nat) (l : list nat) :
  In j (without k l) <-> In j l /\ j <> k.
Proof.
  unfold without. rewrite filter_In, negb_true_iff, Nat.eqb_neq. tauto.
Qed.

Lemma has_In (k : nat) (l : list nat) : has k l = true <-> In k l.
Proof.
  unfold has. rewrite existsb_exists. split.
  - intros (j & Hj & He). apply Nat.eqb_eq in He. now subst.
  - intros H. exists k. split; [exact H | apply Nat.eqb_refl].
Qed.

Lemma without_only (k : nat) (l : list nat) :
  (forall j, In j l -> j = k) -> without k l = [].
Proof.
  intros H. induction l as [|a l IH]; [reflexivity|].
  unfold without. cbn [filter].
  rewrite (H a (or_introl eq_refl)), Nat.eqb_refl. cbn [negb].
  apply IH. intros j Hj. apply H. now right.
Qed.

Lemma only_none (l : list nat) (r : option nat) :
  (forall j, In j l -> r = Some j) -> r = None -> l = [].
Proof.
  intros H Hr. destruct l as [|a l]; [reflexivity|].
  specialize (H a (or_introl eq_refl)). congruence.
Qed.

Lemma Inv_mount (b v : bool) : Inv (mount b v).
Proof.
  destruct b, v; unfold Inv, mount; cbn;
    repeat split; try (intros; contradiction || discriminate || lia || tauto);
    intros; repeat match goal with
                   | H : _ \/ _ |- _ => destruct H
                   | H : False |- _ => contradiction
                   | H : Some _ = Some _ |- _ => injection H as <-
                   end; subst; try reflexivity; try discriminate.
Qed.

Lemma Inv_settle (k : nat) (ok : bool) (m : Mounted) :
  Inv m -> Inv (settle k ok m).
Proof.
  intros HI. unfold settle.
  destruct (has k (pending (comp m))); [|exact HI].
  destruct m as [c en cl].
  destruct c as [it cam hands ini isi err st op mo pe fr].
  unfold Inv in *. cbn [comp enabledProp cleanupOf] in *.
  unfold settled.
  cbn [interp cameraRef handsRef initializingRef isInitialized error started
       opened mounted pending fresh] in *.
  destruct HI as (I1 & I2 & I3 & I4 & I5 & I6 & I7 & I8 & I9).
  destruct (has k mo) eqn:Hk;
    cbn [interp cameraRef handsRef initializingRef isInitialized error started
         opened mounted pending fresh].
  - apply has_In in Hk. apply I3 in Hk. destruct (I7 k Hk) as (Htrue & _).
    repeat (split; [assumption|]). intros Hen. congruence.
  - repeat (split; [assumption|]). assumption.
Qed.

(** What the two releases leave behind. *)
Lemma release_fields (c : Component) :
  (forall j, In j (started c) -> cameraRef c = Some j) ->
  (forall j, In j (opened c) -> handsRef c = Some j) ->
  let d := closeHands (stopCamera c) in
  cameraRef d = None /\ handsRef d = None /\ started d = [] /\ opened d = []
  /\ mounted d = mounted c /\ interp d = interp c
  /\ initializingRef d = initializingRef c
  /\ isInitialized d = isInitialized c /\ error d = error c.
Proof.
  destruct c as [it cam hands ini isi err st op mo pe fr].
  cbn [started opened cameraRef handsRef]. intros I1 I2.
  assert (Hst : forall j, cam = Some j -> without j st = []).
  { intros j Hj. apply without_only. intros i Hi.
    specialize (I1 i Hi). congruence. }
  assert (Hop : forall j, hands = Some j -> without j op = []).
  { intros j Hj. apply without_only. intros i Hi.
    specialize (I2 i Hi). congruence. }
  assert (Hst0 : cam = None -> st = [])
    by (intros ->; apply (only_none st None); [exact I1 | reflexivity]).
  assert (Hop0 : hands = None -> op = [])
    by (intros ->; apply (only_none op None); [exact I2 | reflexivity]).
  unfold closeHands, stopCamera.
  destruct cam as [j|], hands as [i|];
    cbn [interp cameraRef handsRef initializingRef isInitialized error started
         opened mounted pending fresh].
  - rewrite (Hst j eq_refl), (Hop i eq_refl). now repeat split.
  - rewrite (Hst j eq_refl), (Hop0 eq_refl). now repeat split.
  - rewrite (Hst0 eq_refl), (Hop i eq_refl). now repeat split.
  - rewrite (Hst0 eq_refl), (Hop0 eq_refl). now repeat split.
Qed.

Lemma cleanup_fields (k : nat) (c : Component) :
  (forall j, In j (started c) -> cameraRef c = Some j) ->
  (forall j, In j (opened c) -> handsRef c = Some j) ->
  let d := cleanup k c in
  cameraRef d = None /\ handsRef d = None /\ started d = [] /\ opened d = []
  /\ mounted d = without k (mounted c) /\ interp d = interp c
  /\ initializingRef d = false /\ isInitialized d = false
  /\ error d = error c.
Proof.
  intros I1 I2.
  set (c0 := {| interp := interp c; cameraRef := cameraRef c;
                handsRef := handsRef c; initializingRef := false;
                isInitialized := isInitialized c; error := error c;
                started := started c; opened := opened c;
                mounted := without k (mounted c); pending := pending c;
                fresh := fresh c |}).
  destruct (release_fields c0 I1 I2)
    as (Hc & Hh & Hs & Ho & Hm & Hi & Hini & _ & He).
  unfold cleanup. fold c0. cbv zeta.
  cbn [interp cameraRef handsRef initializingRef isInitialized error started
       opened mounted pending fresh].
  rewrite Hc, Hh, Hs, Ho, Hm, Hi, Hini, He. now repeat split.
Qed.

Lemma disabledBranch_fields (c : Component) :
  (forall j, In j (started c) -> cameraRef c = Some j) ->
  (forall j, In j (opened c) -> handsRef c = Some j) ->
  let d := disabledBranch c in
  cameraRef d = None /\ handsRef d = None /\ started d = [] /\ opened d = []
  /\ mounted d = mounted c
  /\ initializingRef d = false /\ isInitialized d = false /\ error d = None
  /\ HandGestureController.lastHandPosRef (interp d) = None.
Proof.
  intros I1 I2.
  destruct (release_fields c I1 I2)
    as (Hc & Hh & Hs & Ho & Hm & _).
  unfold disabledBranch. cbv zeta.
  cbn [interp cameraRef handsRef initializingRef isInitialized error started
       opened mounted pending fresh].
  rewrite Hc, Hh, Hs, Ho, Hm. now repeat split.
Qed.

Lemma Inv_render (b v : bool) (m : Mounted) :
  Inv m -> Inv (step (Render b v) m).
Proof.
  intros HI. cbn [step].
  destruct (Bool.eqb b (enabledProp m)) eqn:Hb; [exact HI|].
  apply eqb_false_iff in Hb.
  destruct b.
  - (* switched on: everything was released *)
    destruct m as [c en cl].
    destruct c as [it cam hands ini isi err st op mo pe fr].
    unfold Inv in HI. cbn [comp enabledProp cleanupOf] in *.
    cbn [interp cameraRef handsRef initializingRef isInitialized error started
         opened mounted pending fresh] in HI.
    destruct HI as (I1 & I2 & I3 & I4 & I5 & I6 & I7 & I8 & I9).
    assert (Hen : en = false) by (destruct en; congruence). subst en.
    destruct (I9 eq_refl) as (-> & -> & -> & -> & -> & Hlast).
    assert (Hcl : cl = None).
    { destruct cl as [k|]; [|reflexivity]. destruct (I7 k eq_refl). discriminate. }
    subst cl.
    assert (Hst : st = []) by (apply (only_none st None); [exact I1 | reflexivity]).
    assert (Hop : op = []) by (apply (only_none op None); [exact I2 | reflexivity]).
    assert (Hmo : mo = []).
    { destruct mo as [|a mo]; [reflexivity|].
      specialize (I3 a (or_introl eq_refl)). discriminate. }
    subst st op mo.
    unfold effect. cbn. unfold Inv. cbn.
    destruct v; cbn; repeat split;
      try (intros; contradiction || discriminate || lia);
      intros;
      repeat match goal with
             | H : _ \/ _ |- _ => destruct H
             | H : False |- _ => contradiction
             | H : Some _ = Some _ |- _ => injection H as <-
             end; subst; try reflexivity; try discriminate; try lia.
  - (* switched off: the cleanup of the run, then the disabled branch *)
    destruct m as [c en cl]. cbn [comp enabledProp cleanupOf] in *.
    assert (Hen : en = true) by (destruct en; congruence). subst en.
    destruct HI as (I1 & I2 & I3 & I4 & I5 & I6 & I7 & I8 & I9).
    cbn [comp enabledProp cleanupOf] in *.
    destruct cl as [k|]; [|now elim (I8 eq_refl)].
    destruct (cleanup_fields k c I1 I2)
      as (Hc & Hh & Hs & Ho & Hm & _).
    assert (Hmo : without k (mounted c) = []).
    { apply without_only. intros j Hj. specialize (I3 j Hj). congruence. }
    remember (cleanup k c) as c1 eqn:Hc1.
    assert (J1 : forall j, In j (started c1) -> cameraRef c1 = Some j)
      by (rewrite Hs; intros j []).
    assert (J2 : forall j, In j (opened c1) -> handsRef c1 = Some j)
      by (rewrite Ho; intros j []).
    destruct (disabledBranch_fields c1 J1 J2)
      as (Kc & Kh & Ks & Ko & Km & Kini & Kisi & Kerr & Klast).
    unfold effect. cbn [negb].
    unfold Inv. cbn [comp enabledProp cleanupOf].
    rewrite Kc, Kh, Ks, Ko, Km, Kini, Kisi, Kerr, Klast, Hm, Hmo.
    repeat split; try (intros; contradiction || discriminate); cbn; lia.
Qed.

Lemma Inv_step (ev : Event) (m : Mounted) : Inv m -> Inv (step ev m).
Proof.
  destruct ev as [b v|k|k]; [apply Inv_render | apply Inv_settle ..].
Qed.

Lemma Inv_run (evs : list Event) : forall m, Inv m -> Inv (run evs m).
Proof.
  induction evs as [|ev evs IH]; intros m Hm; [exact Hm|].
  cbn [run fold_left]. apply IH. now apply Inv_step.
Qed.

(** X17.  After the first render and every sequence of renders and settled
    [camera.start()] promises, at most one camera is started and at most one
    [Hands] object is open, and they are the ones [cameraRef] and [handsRef]
    hold; while [enabled] is false no camera is started, no [Hands] object
    is open, both refs are null, and the hooks show neither "initialized"
    nor an error, also when a promise of an earlier enabling settles late. *)
Theorem gestures_off_releases_everything
        (b v : bool) (evs : list Event) :
  let m := run evs (mount b v) in
  let c := comp m in
  (List.length (started c) <= 1)%nat
  /\ (List.length (opened c) <= 1)%nat
  /\ (forall j, In j (started c) -> cameraRef c = Some j)
  /\ (forall j, In j (opened c) -> handsRef c = Some j)
  /\ (enabledProp m = false ->
      started c = [] /\ opened c = [] /\ cameraRef c = None
      /\ handsRef c = None /\ initializingRef c = false
      /\ isInitialized c = false /\ error c = None
      /\ HandGestureController.lastHandPosRef (interp c) = None).
Proof.
  intros m c.
  pose proof (Inv_run evs (mount b v) (Inv_mount b v)) as HI.
  fold m in HI. unfold Inv in HI. fold c in HI.
  destruct HI as (I1 & I2 & I3 & I4 & I5 & I6 & I7 & I8 & I9).
  repeat (split; [assumption|]).
  intros Hoff. destruct (I9 Hoff) as (Hc & Hh & Hi & Hs & He & Hl).
  split; [apply (only_none _ _ I1 Hc)|].
  split; [apply (only_none _ _ I2 Hh)|].
  repeat (split; [assumption|]). assumption.
Qed.

(** Switched on, camera started, switched off, and the promise of a second
    enabling settling after the second switching off. *)
Lemma gestures_off_releases_everything_witness :
  let m := run [Render true true; CameraStarted 0; Render false true;
                Render true true; Render false true; CameraStarted 1]
               (mount false true) in
  enabledProp m = false
  /\ started (comp m) = [] /\ opened (comp m) = []
  /\ cameraRef (comp m) = None /\ handsRef (comp m) = None
  /\ isInitialized (comp m) = false /\ error (comp m) = None.
Proof.
  intros m. split; [reflexivity|].
  destruct (gestures_off_releases_everything
              false true
              [Render true true; CameraStarted 0; Render false true;
               Render true true; Render false true; CameraStarted 1])
    as (_ & _ & _ & _ & Hoff).
  destruct (Hoff eq_refl) as (Hs & Ho & Hc & Hh & _ & Hi & He & _).
  repeat split; assumption.
Defined.

(** X18.  While [enabled] is true the component holds exactly one open
    [Hands] object, built by the effect run whose cleanup React holds; and
    whenever [enabled] is false, the effect run of the next enabling is not
    stopped by the guard against a second initialisation (line 57): it
    builds a new [Hands] object and returns its cleanup. *)
Theorem enabling_always_initialises
        (b v : bool) (evs : list Event) (v' : bool) :
  let m := run evs (mount b v) in
  (enabledProp m = true ->
   exists k, cleanupOf m = Some k /\ handsRef (comp m) = Some k
             /\ opened (comp m) = [k])
  /\ (enabledProp m = false ->
      snd (effect true v' (comp m)) = Some (fresh (comp m))
      /\ handsRef (fst (effect true v' (comp m))) = Some (fresh (comp m))).
Proof.
  intros m.
  pose proof (Inv_run evs (mount b v) (Inv_mount b v)) as HI.
  fold m in HI. unfold Inv in HI.
  destruct HI as (I1 & I2 & I3 & I4 & I5 & I6 & I7 & I8 & I9).
  split.
  - intros Hon. destruct (cleanupOf m) as [k|] eqn:Hcl; [|now elim (I8 Hon)].
    exists k. destruct (I7 k eq_refl) as (_ & Hh & Ho). now repeat split.
  - intros Hoff. destruct (I9 Hoff) as (_ & Hh & Hi & _).
    unfold effect. rewrite Hi, Hh. cbn. split; reflexivity.
Qed.

Lemma enabling_always_initialises_witness :
  let m := run [Render true true; CameraFailed 0; Render false true]
               (mount false true) in
  snd (effect true true (comp m)) = Some 1%nat
  /\ handsRef (fst (effect true true (comp m))) = Some 1%nat.
Proof.
  intros m.
  exact (proj2 (enabling_always_initialises
                  false true [Render true true; CameraFailed 0; Render false true]
                  true)
               eq_refl).
Defined.

Lemma interp_release (c : Component) :
  interp (closeHands (stopCamera c)) = interp c.
Proof.
  unfold closeHands, stopCamera.
  destruct (cameraRef c) eqn:Hc;
    cbn [interp cameraRef handsRef];
    destruct (handsRef c); reflexivity.
Qed.

Lemma interp_cleanup (k : nat) (c : Component) : interp (cleanup k c) = interp c.
Proof.
  unfold cleanup. cbv zeta. cbn [interp]. now rewrite interp_release.
Qed.

Lemma interp_effect (b v : bool) (c : Component) :
  HandGestureController.rotationRef (interp (fst (effect b v c)))
  = HandGestureController.rotationRef (interp c)
  /\ HandGestureController.zoomRef (interp (fst (effect b v c)))
     = HandGestureController.zoomRef (interp c)
  /\ HandGestureController.stateGestureMode (interp (fst (effect b v c)))
     = HandGestureController.stateGestureMode (interp c).
Proof.
  unfold effect. destruct b; cbn [negb].
  - destruct (initializingRef c || _); cbn [fst interp]; now repeat split.
  - cbn [fst]. unfold disabledBranch. cbv zeta. cbn [interp].
    rewrite interp_release. now repeat split.
Qed.

Lemma interp_step (ev : Event) (m : Mounted) :
  HandGestureController.rotationRef (interp (comp (step ev m)))
  = HandGestureController.rotationRef (interp (comp m))
  /\ HandGestureController.zoomRef (interp (comp (step ev m)))
     = HandGestureController.zoomRef (interp (comp m))
  /\ HandGestureController.stateGestureMode (interp (comp (step ev m)))
     = HandGestureController.stateGestureMode (interp (comp m)).
Proof.
  assert (Hsettle : forall k ok, interp (comp (settle k ok m)) = interp (comp m)).
  { intros k ok. unfold settle.
    destruct (has k (pending (comp m))); [|reflexivity].
    cbn [comp]. unfold settled. cbn [mounted].
    destruct (has k (mounted (comp m))); reflexivity. }
  destruct ev as [b v|k|k]; cbn [step].
  - destruct (Bool.eqb b (enabledProp m)); [now repeat split|].
    set (c := match cleanupOf m with
              | Some k => cleanup k (comp m)
              | None => comp m
              end).
    assert (Hc : interp c = interp (comp m)).
    { unfold c. destruct (cleanupOf m); [apply interp_cleanup | reflexivity]. }
    pose proof (interp_effect b v c) as He.
    destruct (effect b v c) as [c' cl']. cbn [fst comp] in *.
    now rewrite <- Hc.
  - now rewrite Hsettle.
  - now rewrite Hsettle.
Qed.

(** X19.  No render and no settled promise touches the accumulated
    rotation, the zoom or the mode hook: switching gestures off and on again
    does not reset them, and the next enabling continues from the rotation
    and zoom the last one left. *)
Theorem lifecycle_keeps_rotation_zoom_and_mode
        (evs : list Event) (m : Mounted) :
  HandGestureController.rotationRef (interp (comp (run evs m)))
  = HandGestureController.rotationRef (interp (comp m))
  /\ HandGestureController.zoomRef (interp (comp (run evs m)))
     = HandGestureController.zoomRef (interp (comp m))
  /\ HandGestureController.stateGestureMode (interp (comp (run evs m)))
     = HandGestureController.stateGestureMode (interp (comp m)).
Proof.
  revert m. induction evs as [|ev evs IH]; intros m; [now repeat split|].
  cbn [run fold_left].
  destruct (IH (step ev m)) as (Hr & Hz & Hm).
  destruct (interp_step ev m) as (Hr1 & Hz1 & Hm1).
  unfold run in Hr, Hz, Hm.
  rewrite Hr, Hz, Hm. now repeat split.
Qed.

(** Once the promise of the current run has settled, the promises of
    earlier runs change nothing. *)
Lemma settle_stale (j : nat) (ok : bool) (k : nat) (m : Mounted) :
  Inv m -> cleanupOf m = Some k -> ~ In k (pending (comp m)) ->
  let m' := settle j ok m in
  cleanupOf m' = Some k
  /\ ~ In k (pending (comp m'))
  /\ isInitialized (comp m') = isInitialized (comp m)
  /\ error (comp m') = error (comp m)
  /\ cameraRef (comp m') = cameraRef (comp m)
  /\ enabledProp m' = enabledProp m.
Proof.
  intros HI Hcl Hk. unfold settle.
  destruct (has j (pending (comp m))) eqn:Hj; [|now repeat split].
  apply has_In in Hj.
  assert (Hjk : j <> k) by (intros ->; contradiction).
  destruct HI as (_ & _ & I3 & _).
  assert (Hm : has j (mounted (comp m)) = false).
  { destruct (has j (mounted (comp m))) eqn:H; [|reflexivity].
    apply has_In in H. apply I3 in H. congruence. }
  cbv zeta. unfold settled. cbn [mounted]. rewrite Hm.
  cbn [comp enabledProp cleanupOf interp cameraRef handsRef initializingRef
       isInitialized error started opened mounted pending fresh].
  repeat split; try assumption.
  intros H. apply In_without in H. tauto.
Qed.

Lemma settles_stale (later : list Event) (k : nat) :
  forall m,
    Inv m -> cleanupOf m = Some k -> ~ In k (pending (comp m)) ->
    forallb isSettle later = true ->
    Inv (run later m)
    /\ isInitialized (comp (run later m)) = isInitialized (comp m)
    /\ error (comp (run later m)) = error (comp m)
    /\ cameraRef (comp (run later m)) = cameraRef (comp m)
    /\ enabledProp (run later m) = enabledProp m.
Proof.
  induction later as [|ev later IH]; intros m HI Hcl Hk Hall.
  - split; [exact HI | now repeat split].
  - cbn [forallb] in Hall. apply andb_prop in Hall. destruct Hall as (Hev & Hall).
    cbn [run fold_left].
    assert (Hstep : exists j ok, step ev m = settle j ok m).
    { destruct ev as [b v|j|j]; [discriminate Hev | now exists j, true
                                 | now exists j, false]. }
    destruct Hstep as (j & ok & ->).
    destruct (settle_stale j ok k m HI Hcl Hk) as (Hcl' & Hk' & Hi & He & Hc & Hen).
    destruct (IH (settle j ok m) (Inv_settle j ok m HI) Hcl' Hk' Hall)
      as (HI2 & Hi2 & He2 & Hc2 & Hen2).
    unfold run in *. rewrite Hi2, He2, Hc2, Hen2.
    split; [exact HI2 | now repeat split].
Qed.

(** X20.  When the [camera.start()] of the current enabling fails, the
    error message is set and "initialized" is false; when it succeeds,
    "initialized" is true and the error is cleared.  Either outcome stays
    through every promise that settles afterwards, the camera object stays
    in [cameraRef], and the next render with [enabled] false clears the
    error and "initialized". *)
Theorem camera_outcome_stays_until_switched_off
        (b v : bool) (before later : list Event) (k : nat) (ok v' : bool) :
  let m := run before (mount b v) in
  cleanupOf m = Some k ->
  In k (pending (comp m)) ->
  In k (mounted (comp m)) ->
  forallb isSettle later = true ->
  let m1 := run later (settle k ok m) in
  isInitialized (comp m1) = ok
  /\ error (comp m1) = (if ok then None else Some cameraError)
  /\ cameraRef (comp m1) = cameraRef (comp m)
  /\ isInitialized (comp (step (Render false v') m1)) = false
  /\ error (comp (step (Render false v') m1)) = None
  /\ cameraRef (comp (step (Render false v') m1)) = None.
Proof.
  intros m Hcl Hp Hm Hall m1.
  pose proof (Inv_run before (mount b v) (Inv_mount b v)) as HI. fold m in HI.
  assert (H0 : cleanupOf (settle k ok m) = Some k
               /\ ~ In k (pending (comp (settle k ok m)))
               /\ isInitialized (comp (settle k ok m)) = ok
               /\ error (comp (settle k ok m))
                  = (if ok then None else Some cameraError)
               /\ cameraRef (comp (settle k ok m)) = cameraRef (comp m)
               /\ enabledProp (settle k ok m) = enabledProp m).
  { unfold settle. rewrite (proj2 (has_In _ _) Hp).
    unfold settled. cbn [mounted]. rewrite (proj2 (has_In _ _) Hm).
    cbn [comp enabledProp cleanupOf interp cameraRef handsRef initializingRef
         isInitialized error started opened mounted pending fresh].
    repeat split; try assumption.
    intros H. apply In_without in H. tauto. }
  destruct H0 as (Hcl0 & Hk0 & Hi0 & He0 & Hc0 & Hen0).
  destruct (settles_stale later k (settle k ok m) (Inv_settle k ok m HI)
                          Hcl0 Hk0 Hall)
    as (HI1 & Hi1 & He1 & Hc1 & Hen1).
  fold m1 in HI1, Hi1, He1, Hc1, Hen1.
  rewrite Hi1, He1, Hc1, Hi0, He0, Hc0.
  repeat (split; [reflexivity|]).
  assert (Hon : enabledProp m1 = true).
  { rewrite Hen1, Hen0. destruct HI as (_ & _ & _ & _ & _ & _ & I7 & _).
    now destruct (I7 k Hcl). }
  pose proof (Inv_render false v' m1 HI1) as HI2.
  assert (Hoff : enabledProp (step (Render false v') m1) = false).
  { cbn [step]. rewrite Hon. cbn [Bool.eqb].
    destruct (effect false v' _) as [c' cl']. reflexivity. }
  destruct HI2 as (_ & _ & _ & _ & _ & _ & _ & _ & I9).
  destruct (I9 Hoff) as (Hc & _ & _ & Hi & He & _).
  now repeat split.
Qed.

Lemma camera_outcome_stays_until_switched_off_witness :
  let m := run [Render true true; Render false true; Render true true]
               (mount false true) in
  let m1 := run [CameraStarted 0; CameraStarted 7] (settle 1 false m) in
  cleanupOf m = Some 1%nat
  /\ isInitialized (comp m1) = false
  /\ error (comp m1) = Some cameraError
  /\ error (comp (step (Render false true) m1)) = None.
Proof.
  intros m m1. split; [reflexivity|].
  destruct (camera_outcome_stays_until_switched_off
              false true [Render true true; Render false true; Render true true]
              [CameraStarted 0; CameraStarted 7] 1 false true)
    as (Hi & He & _ & _ & He' & _).
  - reflexivity.
  - cbn. tauto.
  - cbn. tauto.
  - reflexivity.
  - repeat split; assumption.
Defined.

End CameraLifecycle.

Section NoModel.

Import Viewer.

(** X21.  Before the model is loaded, and for good when loading failed,
    [meshRef] is null: then no tick and no mouse event creates a mesh, in
    either mode, and a mouse move does not even record the pointer. *)
Theorem events_without_model_do_nothing
        (organ : option string) (evs : list Event) (s : State) :
  meshRef s = None ->
  meshRef (run organ evs s) = None
  /\ (forall e, onMouseMove e s = s)
  /\ animate organ s = s.
Proof.
  intros Hm. split; [|split].
  - revert s Hm. induction evs as [|ev evs IH]; intros s Hm; [exact Hm|].
    rewrite run_cons_event. apply IH.
    destruct ev as [|e|e|]; cbn [step].
    + unfold animate. rewrite Hm.
      destruct (gestureEnabledRef s), (gestureControlsRef s); exact Hm.
    + unfold onMouseDown. destruct (gestureEnabledRef s); exact Hm.
    + unfold onMouseMove. now rewrite Hm.
    + exact Hm.
  - intros e. unfold onMouseMove. now rewrite Hm.
  - unfold animate. rewrite Hm.
    destruct (gestureEnabledRef s), (gestureControlsRef s); reflexivity.
Qed.

Lemma events_without_model_do_nothing_witness :
  let s := {| meshRef := None; isDragging := false;
              previousMousePosition := XY.mk 0 0;
              gestureEnabledRef := false; gestureControlsRef := None |} in
  meshRef (run None [Tick; MouseDown {| clientX := 3; clientY := 4 |};
                     MouseMove {| clientX := 30; clientY := 40 |}; Tick] s)
  = None.
Proof.
  intros s.
  exact (proj1 (events_without_model_do_nothing
                  None [Tick; MouseDown {| clientX := 3; clientY := 4 |};
                        MouseMove {| clientX := 30; clientY := 40 |}; Tick]
                  s eq_refl)).
Defined.

End NoModel.
